(** * Bridge server (Alexa + Home Assistant + LLM): a shallow embedding

    The development follows [src/bridge-server/app.py]:
    - [execute_tool], the dispatcher that turns one tool invocation into
      REST calls against the home-automation backend;
    - [process_command_with_claude], the tool-calling loop;
    - [process_alexa_command], the [/process] endpoint.

    The two outside parties (the home-automation backend and the LLM) are
    deterministic oracles that see the history of the calls made so far; the
    calls themselves are recorded in logs threaded through the code. *)

From Stdlib Require Import String Ascii List ZArith QArith Bool Lia DecimalString.
Import ListNotations.
Local Close Scope Q_scope.
Local Open Scope list_scope.
Local Open Scope string_scope.
Set Warnings "-register-all".

(** ** Host-language values *)

(** Decoded JSON, as [response.json()] and the LLM client hand it to the
    code.  A Python [dict] is kept as an association list in insertion
    order. *)
Inductive json : Type :=
| JNull
| JBool (b : bool)
| JNum (q : Q)
| JStr (s : string)
| JArr (items : list json)
| JObj (fields : list (string * json)).

Definition dict := list (string * json).

(** [d.get(k)] / [d[k]] / [k in d]. *)
Fixpoint dict_get (k : string) (d : dict) : option json :=
  match d with
  | [] => None
  | (k', v) :: d' => if k' =? k then Some v else dict_get k d'
  end.

Definition dict_has (k : string) (d : dict) : bool :=
  match dict_get k d with Some _ => true | None => false end.

(** [d[k] = v]: an existing key keeps its position. *)
Fixpoint dict_set (k : string) (v : json) (d : dict) : dict :=
  match d with
  | [] => [(k, v)]
  | (k', v') :: d' =>
      if k' =? k then (k, v) :: d' else (k', v') :: dict_set k v d'
  end.

(** [d.update(extra)] for a dict [extra]. *)
Definition dict_update (d extra : dict) : dict :=
  fold_left (fun acc kv => dict_set (fst kv) (snd kv) acc) extra d.

(** Python truthiness, as used by [if tool_input.get(...)]. *)
Definition truthy (v : json) : bool :=
  match v with
  | JNull => false
  | JBool b => b
  | JNum q => negb (Qeq_bool q 0)
  | JStr s => negb (s =? EmptyString)
  | JArr items => match items with [] => false | _ :: _ => true end
  | JObj fields => match fields with [] => false | _ :: _ => true end
  end.

(** The value [if d.get(k): ... d[k] ...] works on, when the test passes. *)
Definition get_truthy (k : string) (d : dict) : option json :=
  match dict_get k d with
  | Some v => if truthy v then Some v else None
  | None => None
  end.

(** [s.split(".")[0]]. *)
Fixpoint before_dot (s : string) : string :=
  match s with
  | EmptyString => EmptyString
  | String c s' => if (c =? ".")%char then EmptyString else String c (before_dot s')
  end.

(** Text is kept as its UTF-8 bytes (a Python [str] without lone
    surrogates).  A byte below 128 is a character of its own; a longer
    character is a lead byte followed by continuation bytes. *)
Definition byte_is (c : ascii) (n : nat) : bool := (nat_of_ascii c =? n)%nat.

Definition is_continuation (c : ascii) : bool :=
  let n := nat_of_ascii c in ((128 <=? n) && (n <=? 191))%nat.

(** The characters of a text, each as its own string. *)
Fixpoint utf8_chars (s : string) : list string :=
  match s with
  | EmptyString => []
  | String c s' =>
      let continued := match s' with
                       | String c' _ => is_continuation c'
                       | EmptyString => false
                       end in
      match utf8_chars s' with
      | first :: more =>
          if continued then String c first :: more
          else String c EmptyString :: first :: more
      | [] => [String c EmptyString]
      end
  end.

(** The white space of [str.strip()] ([str.isspace]).  One byte: U+0009 to
    U+000D, U+001C to U+0020. *)
Definition is_space (c : ascii) : bool :=
  let n := nat_of_ascii c in
  ((9 <=? n) && (n <=? 13) || (28 <=? n) && (n <=? 32))%nat.

(** Two bytes: U+0085 (C2 85) and U+00A0 (C2 A0). *)
Definition is_space2 (c1 c2 : ascii) : bool :=
  byte_is c1 194 && (byte_is c2 133 || byte_is c2 160).

(** Three bytes: U+1680 (E1 9A 80), U+2000 to U+200A (E2 80 80 to E2 80 8A),
    U+2028, U+2029, U+202F (E2 80 A8, A9, AF), U+205F (E2 81 9F) and
    U+3000 (E3 80 80). *)
Definition is_space3 (c1 c2 c3 : ascii) : bool :=
  let n3 := nat_of_ascii c3 in
  (byte_is c1 225 && byte_is c2 154 && byte_is c3 128)
  || (byte_is c1 226 && byte_is c2 128
      && (((128 <=? n3) && (n3 <=? 138))%nat
          || byte_is c3 168 || byte_is c3 169 || byte_is c3 175))
  || (byte_is c1 226 && byte_is c2 129 && byte_is c3 159)
  || (byte_is c1 227 && byte_is c2 128 && byte_is c3 128).

(** [s] is exactly one white-space character. *)
Definition is_space_char (s : string) : bool :=
  match s with
  | String c1 EmptyString => is_space c1
  | String c1 (String c2 EmptyString) => is_space2 c1 c2
  | String c1 (String c2 (String c3 EmptyString)) => is_space3 c1 c2 c3
  | _ => false
  end.

(** [s.lstrip()]: drop white-space characters while one leads. *)
Fixpoint lstrip (s : string) : string :=
  match s with
  | EmptyString => EmptyString
  | String c1 s1 =>
      if is_space c1 then lstrip s1
      else
        match s1 with
        | String c2 s2 =>
            if is_space2 c1 c2 then lstrip s2
            else
              match s2 with
              | String c3 s3 => if is_space3 c1 c2 c3 then lstrip s3 else s
              | EmptyString => s
              end
        | EmptyString => s
        end
  end.

(** [s.rstrip()]: what is left of [s] once the rest has been stripped is
    dropped too when it is a single white-space character (a white-space
    character starts with a lead byte, so it never runs into the middle of
    another character). *)
Fixpoint rstrip (s : string) : string :=
  match s with
  | EmptyString => EmptyString
  | String c s' =>
      let r := String c (rstrip s') in
      if is_space_char r then EmptyString else r
  end.

(** [s.strip()] *)
Definition strip (s : string) : string := rstrip (lstrip s).

(** ** Exceptions *)

Inductive exn : Type :=
| KeyError (key : string)
| HTTPStatusError (status : Z) (url : string)
| TransportError (msg : string)
| DecodeError (msg : string)
| PyError (cls msg : string)
| APIError (msg : string).

(** What the interpreter and the libraries do outside the source: text
    formatting and the reactions to ill-typed values. *)
Class Runtime : Type := {
  (** [str(v)] inside an f-string, for [v] other than a string *)
  str_other : json -> string;
  (** [json.dumps(v, ensure_ascii=False)] *)
  json_dumps : json -> string;
  (** the message of the exception [raise_for_status] raises *)
  status_error_text : Z -> string -> string;
  (** the exception raised when operation [op] meets a value it rejects *)
  ill_typed : string -> json -> exn;
  (** [d.update(v)] for [v] other than a dict *)
  dict_update_other : dict -> json -> exn + dict;
  (** [(datetime.now() - timedelta(hours=h)).isoformat()], the clock being
      read once per invocation *)
  start_time_iso : json -> exn + string
}.

(** ** The home-automation backend *)

Inductive request : Type :=
| GET (url : string) (headers : list (string * string)) (params : dict)
| POST (url : string) (headers : list (string * string)) (body : dict).

Record response : Type := mkResponse {
  status_code : Z;
  (** [response.json()]: the decoded body, or the decoder's complaint *)
  body : string + json
}.

(** What [await http_client.get/post] does: it answers, or it raises. *)
Inductive outcome : Type :=
| Answered (r : response)
| Failed (msg : string).

Definition http_log := list (request * outcome).

(** The backend sees the calls made before the current one. *)
Definition backend := http_log -> request -> outcome.

(** ** The LLM *)

(** One fragment of a model response: [content_block.type] tells a tool
    request from the rest, and only a text fragment has a [text]. *)
Inductive content_block : Type :=
| TextBlock (text : string)
| ToolUseBlock (id name : string) (input : dict)
| OtherBlock (type : string).

Record llm_response : Type := mkReply {
  stop_reason : string;
  content : list content_block
}.

(** [{"type": "tool_result", "tool_use_id": ..., "content": ...}] *)
Record tool_result : Type := mkToolResult {
  result_type : string;
  tool_use_id : string;
  result_content : string
}.

(** The ["content"] of a turn: the command text, the fragments of a model
    response, or the bundle of tool results. *)
Inductive turn_content : Type :=
| Plain (text : string)
| Blocks (blocks : list content_block)
| Results (results : list tool_result).

(** [{"role": ..., "content": ...}] *)
Record turn : Type := mkTurn {
  role : string;
  turn_body : turn_content
}.

(** The arguments of [claude_client.messages.create] that the code chooses;
    the system prompt is text built from the clock and is left to the
    oracle. *)
Record llm_request : Type := mkRequest {
  model : string;
  max_tokens : Z;
  tools : list string;
  messages : list turn
}.

Inductive llm_outcome : Type :=
| Replied (r : llm_response)
| LLMFailed (msg : string).

Definition llm_log := list (llm_request * llm_outcome).

Definition llm_oracle := llm_log -> llm_request -> llm_outcome.

(** The calls made so far, to both parties. *)
Record world : Type := mkWorld {
  llm_calls : llm_log;
  http_calls : http_log
}.

(** ** The request and the response of [/process] *)

Record AlexaRequest : Type := mkAlexaRequest {
  command : string;
  context : option dict;
  user_id : option string
}.

Record AlexaResponse : Type := mkAlexaResponse {
  speech : string;
  should_end_session : bool;
  card_title : option string;
  card_content : option string
}.

Record HTTPException : Type := mkHTTPException {
  http_status : Z;
  detail : string
}.

(** ** The tool catalog: names and required fields of [TOOLS] *)

Record tool_definition : Type := mkTool {
  tool_name_of : string;
  required : list string
}.

Definition TOOLS : list tool_definition :=
  [ mkTool "get_home_state" [];
    mkTool "control_device" ["entity_id"; "action"];
    mkTool "control_climate" ["entity_id"];
    mkTool "execute_scene" ["scene_id"];
    mkTool "call_service" ["domain"; "service"];
    mkTool "get_history" ["entity_ids"] ].

Definition TOOL_NAMES : list string := map tool_name_of TOOLS.

Section Bridge.

Context {rt : Runtime}.

(** Configuration read from the environment at start-up. *)
Variable HA_URL : string.
Variable HA_TOKEN : string.
Variable BRIDGE_API_KEY : string.

(** [str(e)]. *)
Definition str_exn (e : exn) : string :=
  match e with
  | KeyError key => "'" ++ key ++ "'"
  | HTTPStatusError status url => status_error_text status url
  | TransportError msg => msg
  | DecodeError msg => msg
  | PyError _ msg => msg
  | APIError msg => msg
  end.

(** [f"{v}"]. *)
Definition py_str (v : json) : string :=
  match v with
  | JStr s => s
  | _ => str_other v
  end.

(** [for x in v]: the elements of a list, the characters of a string, the
    keys of a dict. *)
Definition py_iter (v : json) : exn + list json :=
  match v with
  | JArr items => inr items
  | JStr s => inr (map JStr (utf8_chars s))
  | JObj fields => inr (map (fun kv => JStr (fst kv)) fields)
  | _ => inl (ill_typed "iter" v)
  end.

(** [d.update(v)]. *)
Definition py_update (d : dict) (v : json) : exn + dict :=
  match v with
  | JObj extra => inr (dict_update d extra)
  | _ => dict_update_other d v
  end.

Variable ha : backend.

(** Code that calls the backend and may raise: the log survives a raise. *)
Definition M (A : Type) : Type := http_log -> (exn + A) * http_log.

Definition ret {A} (a : A) : M A := fun log => (inr a, log).

Definition raise {A} (e : exn) : M A := fun log => (inl e, log).

Definition bind {A B} (c : M A) (k : A -> M B) : M B :=
  fun log =>
    match c log with
    | (inl e, log') => (inl e, log')
    | (inr a, log') => k a log'
    end.

Notation "x <- c ;; k" := (bind c (fun x => k))
  (at level 61, c at next level, right associativity).
Notation "c ;;; k" := (bind c (fun _ => k))
  (at level 61, right associativity).

Definition lift {A} (r : exn + A) : M A :=
  match r with
  | inl e => raise e
  | inr a => ret a
  end.

(** [d[k]]. *)
Definition subscript (d : dict) (k : string) : M json :=
  match dict_get k d with
  | Some v => ret v
  | None => raise (KeyError k)
  end.

Definition http (req : request) : M response :=
  fun log =>
    let o := ha log req in
    let log' := (log ++ [(req, o)])%list in
    match o with
    | Answered r => (inr r, log')
    | Failed msg => (inl (TransportError msg), log')
    end.

Definition is_success (r : response) : bool :=
  ((200 <=? status_code r) && (status_code r <=? 299))%Z.

Definition raise_for_status (url : string) (r : response) : M unit :=
  if is_success r then ret tt else raise (HTTPStatusError (status_code r) url).

Definition response_json (r : response) : M json :=
  match body r with
  | inr v => ret v
  | inl msg => raise (DecodeError msg)
  end.

(** A [for] loop whose body appends one value per element. *)
Fixpoint for_each {A B} (f : A -> M B) (l : list A) : M (list B) :=
  match l with
  | [] => ret []
  | x :: l' => y <- f x ;; ys <- for_each f l' ;; ret (y :: ys)
  end.

(** ** execute_tool *)

Definition headers : list (string * string) :=
  [("Authorization", "Bearer " ++ HA_TOKEN); ("Content-Type", "application/json")].

Definition states_url : string := HA_URL ++ "/api/states".
Definition state_url (entity_id : json) : string :=
  HA_URL ++ "/api/states/" ++ py_str entity_id.
Definition service_url (domain service : string) : string :=
  HA_URL ++ "/api/services/" ++ domain ++ "/" ++ service.
Definition set_temperature_url : string :=
  HA_URL ++ "/api/services/climate/set_temperature".
Definition set_hvac_mode_url : string :=
  HA_URL ++ "/api/services/climate/set_hvac_mode".
Definition scene_url : string := HA_URL ++ "/api/services/scene/turn_on".
Definition history_url (stamp : string) : string :=
  HA_URL ++ "/api/history/period/" ++ stamp.

(** [s["entity_id"].startswith(prefix)] *)
Definition entity_has_prefix (pre : string) (s : json) : exn + bool :=
  match s with
  | JObj fields =>
      match dict_get "entity_id" fields with
      | Some (JStr id) => inr (String.prefix pre id)
      | Some v => inl (ill_typed "startswith" v)
      | None => inl (KeyError "entity_id")
      end
  | _ => inl (ill_typed "getitem" s)
  end.

(** [[s for s in all_states if s["entity_id"].startswith(prefix)]] *)
Fixpoint keep_domain (pre : string) (l : list json) : exn + list json :=
  match l with
  | [] => inr []
  | s :: l' =>
      match entity_has_prefix pre s with
      | inl e => inl e
      | inr b =>
          match keep_domain pre l' with
          | inl e => inl e
          | inr kept => inr (if b then s :: kept else kept)
          end
      end
  end.

Definition get_home_state (tool_input : dict) : M dict :=
  match get_truthy "entity_ids" tool_input with
  | Some ids =>
      entity_ids <- lift (py_iter ids) ;;
      states <- for_each (fun entity_id =>
                  let url := state_url entity_id in
                  r <- http (GET url headers []) ;;
                  raise_for_status url r ;;;
                  response_json r) entity_ids ;;
      ret [("states", JArr states)]
  | None =>
      let url := states_url in
      r <- http (GET url headers []) ;;
      raise_for_status url r ;;;
      all_states <- response_json r ;;
      match get_truthy "domain" tool_input with
      | Some domain =>
          items <- lift (py_iter all_states) ;;
          kept <- lift (keep_domain (py_str domain ++ ".") items) ;;
          ret [("states", JArr kept)]
      | None => ret [("states", all_states)]
      end
  end.

Definition control_device (tool_input : dict) : M dict :=
  entity_id <- subscript tool_input "entity_id" ;;
  action <- subscript tool_input "action" ;;
  domain <- match entity_id with
            | JStr s => ret (before_dot s)
            | _ => raise (ill_typed "split" entity_id)
            end ;;
  let url := service_url domain (py_str action) in
  let data := [("entity_id", entity_id)] in
  data <- match get_truthy "attributes" tool_input with
          | Some attributes => lift (py_update data attributes)
          | None => ret data
          end ;;
  r <- http (POST url headers data) ;;
  raise_for_status url r ;;;
  ret [("success", JBool true); ("action", action); ("entity", entity_id)].

Definition control_climate (tool_input : dict) : M dict :=
  entity_id <- subscript tool_input "entity_id" ;;
  let url := set_temperature_url in
  let data := [("entity_id", entity_id)] in
  let data := match dict_get "temperature" tool_input with
              | Some t => dict_set "temperature" t data
              | None => data
              end in
  match dict_get "hvac_mode" tool_input with
  | Some mode =>
      let mode_url := set_hvac_mode_url in
      let mode_data := [("entity_id", entity_id); ("hvac_mode", mode)] in
      _ <- http (POST mode_url headers mode_data) ;; ret tt
  | None => ret tt
  end ;;;
  (if dict_has "temperature" tool_input
   then r <- http (POST url headers data) ;; raise_for_status url r ;;; ret tt
   else ret tt) ;;;
  ret [("success", JBool true); ("entity", entity_id)].

Definition execute_scene (tool_input : dict) : M dict :=
  scene_id <- subscript tool_input "scene_id" ;;
  let url := scene_url in
  let data := [("entity_id", scene_id)] in
  r <- http (POST url headers data) ;;
  raise_for_status url r ;;;
  ret [("success", JBool true); ("scene", scene_id)].

Definition call_service (tool_input : dict) : M dict :=
  domain <- subscript tool_input "domain" ;;
  service <- subscript tool_input "service" ;;
  let url := service_url (py_str domain) (py_str service) in
  let data := [] in
  let data := match get_truthy "entity_id" tool_input with
              | Some entity_id => dict_set "entity_id" entity_id data
              | None => data
              end in
  data <- match get_truthy "data" tool_input with
          | Some extra => lift (py_update data extra)
          | None => ret data
          end ;;
  r <- http (POST url headers data) ;;
  raise_for_status url r ;;;
  ret [("success", JBool true)].

Definition get_history (tool_input : dict) : M dict :=
  ids <- subscript tool_input "entity_ids" ;;
  let hours := match dict_get "hours" tool_input with
               | Some h => h
               | None => JNum 24
               end in
  stamp <- lift (start_time_iso hours) ;;
  entity_ids <- lift (py_iter ids) ;;
  histories <- for_each (fun entity_id =>
                 let url := history_url stamp in
                 let params := [("filter_entity_id", entity_id)] in
                 r <- http (GET url headers params) ;;
                 raise_for_status url r ;;;
                 h <- response_json r ;;
                 ret (JObj [("entity_id", entity_id); ("history", h)])) entity_ids ;;
  ret [("histories", JArr histories)].

(** The body of the [try] block. *)
Definition execute_tool_try (tool_name : string) (tool_input : dict) : M dict :=
  if tool_name =? "get_home_state" then get_home_state tool_input
  else if tool_name =? "control_device" then control_device tool_input
  else if tool_name =? "control_climate" then control_climate tool_input
  else if tool_name =? "execute_scene" then execute_scene tool_input
  else if tool_name =? "call_service" then call_service tool_input
  else if tool_name =? "get_history" then get_history tool_input
  else ret [("error", JStr ("Tool desconhecido: " ++ tool_name))].

(** [try: ... except Exception as e: return {"error": str(e)}] *)
Definition execute_tool (tool_name : string) (tool_input : dict)
  : http_log -> dict * http_log :=
  fun log =>
    match execute_tool_try tool_name tool_input log with
    | (inr result, log') => (result, log')
    | (inl e, log') => ([("error", JStr (str_exn e))], log')
    end.

(** ** process_command_with_claude *)

Variable llm : llm_oracle.

Definition MODEL : string := "claude-sonnet-4-20250514".

(** The arguments of a [claude_client.messages.create(...)] call. *)
Definition llm_request_of (msgs : list turn) : llm_request :=
  mkRequest MODEL 4096 TOOL_NAMES msgs.

(** [claude_client.messages.create(...)] *)
Definition create_message (msgs : list turn) (w : world)
  : (exn + llm_response) * world :=
  let req := llm_request_of msgs in
  let o := llm (llm_calls w) req in
  let w' := mkWorld (llm_calls w ++ [(req, o)])%list (http_calls w) in
  match o with
  | Replied r => (inr r, w')
  | LLMFailed msg => (inl (APIError msg), w')
  end.

(** The [for content_block in response.content] loop that fills
    [tool_results]. *)
Fixpoint run_tools (blocks : list content_block) (log : http_log)
  : list tool_result * http_log :=
  match blocks with
  | [] => ([], log)
  | ToolUseBlock id tool_name tool_input :: rest =>
      let (result, log1) := execute_tool tool_name tool_input log in
      let (results, log2) := run_tools rest log1 in
      (mkToolResult "tool_result" id (json_dumps (JObj result)) :: results, log2)
  | _ :: rest => run_tools rest log
  end.

(** The message list of the call inside the loop. *)
Definition loop_messages (user_message : string) (response : llm_response)
    (tool_results : list tool_result) : list turn :=
  [ mkTurn "user" (Plain user_message);
    mkTurn "assistant" (Blocks (content response));
    mkTurn "user" (Results tool_results) ].

(** [while response.stop_reason == "tool_use"]: [None] when the fuel runs
    out before the model stops asking for tools. *)
Fixpoint tool_loop (fuel : nat) (user_message : string)
    (response : llm_response) (w : world)
  : option (exn + llm_response) * world :=
  if stop_reason response =? "tool_use" then
    match fuel with
    | O => (None, w)
    | S fuel' =>
        let (tool_results, log') := run_tools (content response) (http_calls w) in
        let w1 := mkWorld (llm_calls w) log' in
        match create_message (loop_messages user_message response tool_results) w1 with
        | (inl e, w2) => (Some (inl e), w2)
        | (inr response', w2) => tool_loop fuel' user_message response' w2
        end
    end
  else (Some (inr response), w).

(** [final_response += content_block.text] over the blocks that have one. *)
Fixpoint final_text (blocks : list content_block) : string :=
  match blocks with
  | [] => EmptyString
  | TextBlock text :: rest => text ++ final_text rest
  | _ :: rest => final_text rest
  end.

Definition newline : string := String (ascii_of_nat 10) EmptyString.

Definition build_user_message (command : string) (context : dict) : string :=
  let user_message := "O usuário disse via Alexa: '" ++ command ++ "'" in
  match context with
  | [] => user_message
  | _ :: _ =>
      user_message ++ newline ++ newline ++ "Contexto adicional: "
        ++ json_dumps (JObj context)
  end.

Definition apology (e : exn) : string :=
  "Desculpe, tive um problema ao processar seu pedido: " ++ str_exn e.

Definition process_command_with_claude (fuel : nat) (command : string)
    (context : dict) (w : world) : option string * world :=
  let user_message := build_user_message command context in
  match create_message [mkTurn "user" (Plain user_message)] w with
  | (inl e, w1) => (Some (apology e), w1)
  | (inr response, w1) =>
      match tool_loop fuel user_message response w1 with
      | (None, w2) => (None, w2)
      | (Some (inl e), w2) => (Some (apology e), w2)
      | (Some (inr final), w2) => (Some (strip (final_text (content final))), w2)
      end
  end.

(** ** process_alexa_command *)

Definition key_matches (x_api_key : option string) : bool :=
  match x_api_key with
  | Some k => k =? BRIDGE_API_KEY
  | None => false
  end.

Definition process_alexa_command (fuel : nat) (request : AlexaRequest)
    (x_api_key : option string) (w : world)
  : option (HTTPException + AlexaResponse) * world :=
  if negb (key_matches x_api_key) then
    (Some (inl (mkHTTPException 401 "Unauthorized")), w)
  else
    let context := match context request with Some c => c | None => [] end in
    match process_command_with_claude fuel (command request) context w with
    | (Some response_text, w') =>
        (Some (inr (mkAlexaResponse response_text true
                      (Some "Casa Inteligente") (Some response_text))), w')
    | (None, w') => (None, w')
    end.

End Bridge.

(** ** Vocabulary of the statements *)

Definition request_url (req : request) : string :=
  match req with
  | GET url _ _ => url
  | POST url _ _ => url
  end.

(** [{"error": msg}], the object both error paths of [execute_tool] build. *)
Definition error_result (msg : string) : dict := [("error", JStr msg)].

(** The required fields the catalog declares for a tool. *)
Definition required_of (tool_name : string) : list string :=
  match find (fun t => tool_name =? tool_name_of t) TOOLS with
  | Some t => required t
  | None => []
  end.

(** The first of [keys] that [d] lacks. *)
Fixpoint first_missing (keys : list string) (d : dict) : option string :=
  match keys with
  | [] => None
  | k :: keys' => if dict_has k d then first_missing keys' d else Some k
  end.

(** A failure result in the words of the specification: a success flag set
    to false next to a non-empty error string. *)
Definition reports_failure (result : dict) : Prop :=
  dict_get "success" result = Some (JBool false) /\
  exists msg, dict_get "error" result = Some (JStr msg) /\ msg <> EmptyString.

(** The identifier of a state object, when it has one. *)
Definition entity_id_of (s : json) : option string :=
  match s with
  | JObj fields =>
      match dict_get "entity_id" fields with
      | Some (JStr id) => Some id
      | _ => None
      end
  | _ => None
  end.

(** A state object with an identifier to filter on. *)
Definition has_identifier (s : json) : Prop := exists id, entity_id_of s = Some id.

(** The query went through: an answer with a success status and a body
    that decodes. *)
Definition went_through (o : outcome) : bool :=
  match o with
  | Answered r => is_success r && match body r with inr _ => true | inl _ => false end
  | Failed _ => false
  end.

(** [s] belongs to domain [d]: its identifier starts with [d.]. *)
Definition in_domain (d : string) (s : json) : bool :=
  match entity_id_of s with
  | Some id => String.prefix (d ++ ".") id
  | None => false
  end.

(** The tool requests of a response, in order. *)
Fixpoint tool_uses (blocks : list content_block) : list (string * string * dict) :=
  match blocks with
  | [] => []
  | ToolUseBlock id name input :: rest => (id, name, input) :: tool_uses rest
  | _ :: rest => tool_uses rest
  end.

(** A computation that leaves the log alone. *)
Definition quiet {A} (c : M A) : Prop := forall log, snd (c log) = log.

(** Failure containment.  [contained excused c]: [c] only appends to the
    log; a call that raised is the reason [c] raised; and so is a call
    answered with a non-success status, unless the call is [excused]. *)
Definition contained {A} (excused : request -> Prop) (c : M A) : Prop :=
  forall log, exists calls,
    snd (c log) = (log ++ calls)%list /\
    (forall req m, In (req, Failed m) calls ->
       fst (c log) = inl (TransportError m)) /\
    (forall req r, In (req, Answered r) calls -> is_success r = false ->
       ~ excused req ->
       fst (c log) = inl (HTTPStatusError (status_code r) (request_url req))).

Section Calls.

Variables HA_URL HA_TOKEN : string.

(** The two service calls of [control_climate]. *)
Definition mode_call (entity_id mode : json) : request :=
  POST (set_hvac_mode_url HA_URL) (headers HA_TOKEN)
    [("entity_id", entity_id); ("hvac_mode", mode)].

Definition temperature_call (entity_id t : json) : request :=
  POST (set_temperature_url HA_URL) (headers HA_TOKEN)
    [("entity_id", entity_id); ("temperature", t)].

(** The mode-set call is the one call whose status is not looked at. *)
Definition is_mode_set (req : request) : Prop :=
  request_url req = set_hvac_mode_url HA_URL.

(** The snapshot query and the per-entity query of [get_home_state]. *)
Definition snapshot_call : request := GET (states_url HA_URL) (headers HA_TOKEN) [].

Definition state_call {rt : Runtime} (entity_id : json) : request :=
  GET (state_url HA_URL entity_id) (headers HA_TOKEN) [].

(** What [control_climate] hands back when nothing raised. *)
Definition climate_success (entity_id : json) : dict :=
  [("success", JBool true); ("entity", entity_id)].

(** What [control_climate] does once the temperature question is reached,
    on the log [log1]. *)
Definition temperature_phase {rt : Runtime} (ha : backend) (input : dict)
    (entity_id : json) (log1 : http_log) : (exn + dict) * http_log :=
  match dict_get "temperature" input with
  | Some t =>
      let req := temperature_call entity_id t in
      match ha log1 req with
      | Answered r =>
          if is_success r
          then (inr (climate_success entity_id), (log1 ++ [(req, Answered r)])%list)
          else (inl (HTTPStatusError (status_code r) (set_temperature_url HA_URL)),
                (log1 ++ [(req, Answered r)])%list)
      | Failed m => (inl (TransportError m), (log1 ++ [(req, Failed m)])%list)
      end
  | None => (inr (climate_success entity_id), log1)
  end.

End Calls.

(** ** Test doubles *)

Definition quote : string := String (ascii_of_nat 34) EmptyString.

Definition show_Z (z : Z) : string := NilZero.string_of_int (Z.to_int z).

Definition show_Q (q : Q) : string :=
  if (Qden q =? 1)%positive then show_Z (Qnum q)
  else show_Z (Qnum q) ++ "/" ++ show_Z (Zpos (Qden q)).

(** A plain serializer, enough for the values of the examples. *)
Fixpoint show_json (v : json) : string :=
  match v with
  | JNull => "null"
  | JBool true => "true"
  | JBool false => "false"
  | JNum q => show_Q q
  | JStr s => quote ++ s ++ quote
  | JArr items =>
      "[" ++ (fix go (l : list json) : string :=
                match l with
                | [] => EmptyString
                | x :: r =>
                    show_json x ++ match r with [] => EmptyString | _ :: _ => ", " ++ go r end
                end) items ++ "]"
  | JObj fields =>
      "{" ++ (fix go (l : list (string * json)) : string :=
                match l with
                | [] => EmptyString
                | (k, x) :: r =>
                    quote ++ k ++ quote ++ ": " ++ show_json x
                      ++ match r with [] => EmptyString | _ :: _ => ", " ++ go r end
                end) fields ++ "}"
  end.

Definition simple_runtime : Runtime := {|
  str_other := fun v =>
    match v with
    | JNull => "None"
    | JBool true => "True"
    | JBool false => "False"
    | _ => show_json v
    end;
  json_dumps := show_json;
  status_error_text := fun status url =>
    "HTTP status " ++ show_Z status ++ " for url '" ++ url ++ "'";
  ill_typed := fun op v => PyError "TypeError" ("bad operand for " ++ op ++ ": " ++ show_json v);
  dict_update_other := fun _ v =>
    inl (PyError "TypeError" ("cannot update a dict from " ++ show_json v));
  start_time_iso := fun _ => inr "2025-01-01T00:00:00"
|}.

(** A backend that plays a fixed list of outcomes, then keeps failing. *)
Definition scripted_backend (script : list outcome) : backend :=
  fun log _ => nth (length log) script (Failed "no more scripted outcomes").

(** A backend that answers by URL from a table, and 500 elsewhere. *)
Definition directory_backend (table : list (string * json)) : backend :=
  fun _ req =>
    match find (fun entry => fst entry =? request_url req) table with
    | Some entry => Answered (mkResponse 200 (inr (snd entry)))
    | None => Answered (mkResponse 500 (inl "Expecting value: line 1 column 1 (char 0)"))
    end.

(** A backend that gives every call the same outcome. *)
Definition constant_backend (o : outcome) : backend := fun _ _ => o.

(** A model that plays a fixed list of outcomes, whatever it is sent. *)
Definition scripted_model (script : list llm_outcome) : llm_oracle :=
  fun log _ => nth (length log) script (LLMFailed "no more scripted replies").

Definition empty_world : world := mkWorld [] [].

Definition ok (v : json) : outcome := Answered (mkResponse 200 (inr v)).

Definition server_error : outcome :=
  Answered (mkResponse 500 (inl "Expecting value: line 1 column 1 (char 0)")).

(** ** Sample data *)

Definition demo_url : string := "http://homeassistant.local:8123".
Definition demo_token : string := "ha-token".
Definition demo_key : string := "bridge-key".

Definition light_sala : json := JObj [("entity_id", JStr "light.sala"); ("state", JStr "on")].
Definition switch_fan : json :=
  JObj [("entity_id", JStr "switch.ventilador"); ("state", JStr "off")].
Definition light_quarto : json :=
  JObj [("entity_id", JStr "light.quarto"); ("state", JStr "off")].

Definition snapshot : list json := [light_sala; switch_fan; light_quarto].

Definition scene_input : dict := [("scene_id", JStr "scene.cinema")].

Definition climate_input : dict :=
  [("entity_id", JStr "climate.sala"); ("temperature", JNum (inject_Z 22));
   ("hvac_mode", JStr "cool")].

Definition mode_only_input : dict :=
  [("entity_id", JStr "climate.sala"); ("hvac_mode", JStr "cool")].

(** A model that asks for the lights, then switches one off, then answers. *)
Definition ask_lights : llm_response :=
  mkReply "tool_use"
    [TextBlock "Vou verificar."; ToolUseBlock "toolu_01" "get_home_state" [("domain", JStr "light")]].

Definition switch_off : llm_response :=
  mkReply "tool_use"
    [ToolUseBlock "toolu_02" "control_device"
       [("entity_id", JStr "light.sala"); ("action", JStr "turn_off")]].

Definition done : llm_response :=
  mkReply "end_turn" [TextBlock "  Apaguei a luz "; OtherBlock "thinking"; TextBlock "da sala. "].

Definition two_step_model : llm_oracle :=
  scripted_model [Replied ask_lights; Replied switch_off; Replied done].

Definition one_step_model : llm_oracle :=
  scripted_model [Replied ask_lights; Replied done].

Definition two_step_backend : backend :=
  scripted_backend [ok (JArr snapshot); ok (JArr [])].

Definition lights_request : AlexaRequest :=
  mkAlexaRequest "apague a luz da sala" None None.

(** ** Vocabulary of the further properties *)

Definition request_headers (req : request) : list (string * string) :=
  match req with
  | GET _ h _ => h
  | POST _ h _ => h
  end.

Definition is_get (req : request) : bool :=
  match req with
  | GET _ _ _ => true
  | POST _ _ _ => false
  end.

(** The requirement every call of tool [name] meets: the configured
    headers, a URL under the configured base, and the method of the tool's
    kind. *)
Definition well_addressed (HA_URL HA_TOKEN name : string) (req : request) : Prop :=
  request_headers req = headers HA_TOKEN /\
  String.prefix HA_URL (request_url req) = true /\
  is_get req = ((name =? "get_home_state") || (name =? "get_history"))%bool.

(** Every call a computation makes satisfies [P]. *)
Definition only_calls {A} (P : request -> Prop) (c : M A) : Prop :=
  forall log, exists calls,
    snd (c log) = (log ++ calls)%list /\ Forall (fun call => P (fst call)) calls.

(** What a computation returns, when it does not raise, satisfies [Q]. *)
Definition returns {A} (Q : A -> Prop) (c : M A) : Prop :=
  forall log a, fst (c log) = inr a -> Q a.

(** Two inputs have the same entries under [keys]. *)
Definition agree_on (keys : list string) (d d' : dict) : Prop :=
  forall k, In k keys -> dict_get k d = dict_get k d'.

Fixpoint has_dot (s : string) : bool :=
  match s with
  | EmptyString => false
  | String c s' => (c =? ".")%char || has_dot s'
  end.

(** A state object that the domain filter can read: an object whose
    [entity_id], when it has one, is a string. *)
Definition readable_entity (s : json) : Prop :=
  match s with
  | JObj fields =>
      match dict_get "entity_id" fields with
      | Some (JStr _) | None => True
      | Some _ => False
      end
  | _ => False
  end.

Definition lacks_entity_id (s : json) : Prop :=
  match s with
  | JObj fields => dict_get "entity_id" fields = None
  | _ => False
  end.

(** The success results of the six tools. *)
Definition success_shape (tool_name : string) (result : dict) : Prop :=
  (tool_name = "get_home_state" /\ exists v, result = [("states", v)]) \/
  (tool_name = "control_device" /\
   exists action entity,
     result = [("success", JBool true); ("action", action); ("entity", entity)]) \/
  (tool_name = "control_climate" /\
   exists entity, result = [("success", JBool true); ("entity", entity)]) \/
  (tool_name = "execute_scene" /\
   exists scene, result = [("success", JBool true); ("scene", scene)]) \/
  (tool_name = "call_service" /\ result = [("success", JBool true)]) \/
  (tool_name = "get_history" /\ exists hs, result = [("histories", JArr hs)]).

(** The log of the LLM calls of a request that came back with [answer]:
    every reply but the last asks for tools, and the last call decides the
    answer, by its text or by its failure. *)
Fixpoint ends_with_answer (calls : llm_log) (answer : string) : Prop :=
  match calls with
  | [] => False
  | (_, o) :: rest =>
      match rest with
      | [] =>
          match o with
          | Replied r =>
              stop_reason r <> "tool_use" /\ answer = strip (final_text (content r))
          | LLMFailed msg =>
              answer = "Desculpe, tive um problema ao processar seu pedido: " ++ msg
          end
      | _ :: _ =>
          match o with
          | Replied r => stop_reason r = "tool_use" /\ ends_with_answer rest answer
          | LLMFailed _ => False
          end
      end
  end.

(** The roles of a message list. *)
Definition roles (msgs : list turn) : list string := map role msgs.

Definition first_is_space (s : string) : bool :=
  match s with
  | EmptyString => false
  | String c _ => is_space c
  end.

Fixpoint last_is_space (s : string) : bool :=
  match s with
  | EmptyString => false
  | String c EmptyString => is_space c
  | String _ s' => last_is_space s'
  end.

(** What a status-checked call that ends a tool leaves in the result. *)
Definition settle {rt : Runtime} (success : dict) (url : string) (o : outcome) : dict :=
  match o with
  | Answered r =>
      if is_success r then success
      else error_result (status_error_text (status_code r) url)
  | Failed m => error_result m
  end.

(** The answer a finished loop stands for. *)
Definition answer_of {rt : Runtime} (outcome : exn + llm_response) : string :=
  match outcome with
  | inl e => apology e
  | inr final => strip (final_text (content final))
  end.

(** What every call of a request for [user_message] looks like. *)
Definition well_formed_call (user_message : string) (req : llm_request) : Prop :=
  model req = "claude-sonnet-4-20250514" /\
  max_tokens req = 4096%Z /\
  tools req = TOOL_NAMES /\
  hd_error (messages req) = Some (mkTurn "user" (Plain user_message)) /\
  (roles (messages req) = ["user"] \/ roles (messages req) = ["user"; "assistant"; "user"]).

(** A model that asks for tools forever. *)
Definition insatiable_model (r : llm_response) : llm_oracle := fun _ _ => Replied r.

(** * Properties *)

Section ExecutorFacts.

Context {rt : Runtime}.
Variables HA_URL HA_TOKEN : string.
Variable ha : backend.

Local Abbreviation exec := (execute_tool HA_URL HA_TOKEN ha).
Local Abbreviation exec_try := (execute_tool_try HA_URL HA_TOKEN ha).

Lemma quiet_ret {A} (a : A) : quiet (ret a).
Proof. intro log; reflexivity. Qed.

Lemma quiet_raise {A} (e : exn) : quiet (@raise A e).
Proof. intro log; reflexivity. Qed.

Lemma quiet_lift {A} (r : exn + A) : quiet (lift r).
Proof. destruct r; intro log; reflexivity. Qed.

Lemma quiet_subscript d k : quiet (subscript d k).
Proof. unfold subscript; destruct (dict_get k d); intro log; reflexivity. Qed.

Lemma quiet_raise_for_status url r : quiet (raise_for_status url r).
Proof. unfold raise_for_status; destruct (is_success r); intro log; reflexivity. Qed.

Lemma quiet_response_json r : quiet (response_json r).
Proof. unfold response_json; destruct (body r); intro log; reflexivity. Qed.

Lemma contained_quiet {A} P (c : M A) : quiet c -> contained P c.
Proof.
  intros Hq log. exists []. rewrite app_nil_r. split; [apply Hq|].
  split; intros; contradiction.
Qed.

Lemma contained_weaken {A} (P Q : request -> Prop) (c : M A) :
  (forall req, P req -> Q req) -> contained P c -> contained Q c.
Proof.
  intros HPQ Hc log. destruct (Hc log) as (calls & Hlog & Hf & Hs).
  exists calls. split; [assumption|]. split; [assumption|].
  intros req r Hin Hbad Hq. apply (Hs req r Hin Hbad). intro HP. apply Hq, HPQ, HP.
Qed.

Lemma contained_bind {A B} P (c : M A) (k : A -> M B) :
  contained P c -> (forall a, contained P (k a)) -> contained P (bind c k).
Proof.
  intros Hc Hk log. destruct (Hc log) as (calls1 & Hlog1 & Hf1 & Hs1).
  unfold bind. destruct (c log) as [[e | a] log1] eqn:Ec; simpl in *.
  - exists calls1. split; [assumption|]. split.
    + intros req m Hin. specialize (Hf1 req m Hin). congruence.
    + intros req r Hin Hbad Hex. specialize (Hs1 req r Hin Hbad Hex). congruence.
  - destruct (Hk a log1) as (calls2 & Hlog2 & Hf2 & Hs2).
    exists (calls1 ++ calls2)%list. subst log1. rewrite app_assoc. split; [assumption|].
    split.
    + intros req m Hin. apply in_app_or in Hin. destruct Hin as [Hin | Hin].
      * specialize (Hf1 req m Hin). discriminate.
      * eauto.
    + intros req r Hin Hbad Hex. apply in_app_or in Hin. destruct Hin as [Hin | Hin].
      * specialize (Hs1 req r Hin Hbad Hex). discriminate.
      * eauto.
Qed.

(** A call followed by [raise_for_status], run on a log. *)
Lemma checked_call_run {A} (req : request) (url : string) (k : response -> M A) log :
  bind (http ha req) (fun r => bind (raise_for_status url r) (fun _ => k r)) log =
  match ha log req with
  | Answered r =>
      if is_success r then k r (log ++ [(req, Answered r)])%list
      else (inl (HTTPStatusError (status_code r) url), (log ++ [(req, Answered r)])%list)
  | Failed m => (inl (TransportError m), (log ++ [(req, Failed m)])%list)
  end.
Proof.
  unfold bind, http, raise_for_status.
  destruct (ha log req) as [r | m]; [destruct (is_success r) |]; reflexivity.
Qed.

(** A call whose answer goes on to [k] unchecked. *)
Lemma unchecked_call_run {A} (req : request) (k : response -> M A) log :
  bind (http ha req) k log =
  match ha log req with
  | Answered r => k r (log ++ [(req, Answered r)])%list
  | Failed m => (inl (TransportError m), (log ++ [(req, Failed m)])%list)
  end.
Proof.
  unfold bind, http. destruct (ha log req) as [r | m]; reflexivity.
Qed.

Lemma contained_checked {A} P (req : request) (url : string) (k : response -> M A) :
  request_url req = url ->
  (forall r, contained P (k r)) ->
  contained P (bind (http ha req)
                 (fun r => bind (raise_for_status url r) (fun _ => k r))).
Proof.
  intros <- Hk log. rewrite checked_call_run.
  destruct (ha log req) as [r | m] eqn:Eo.
  - destruct (is_success r) eqn:Es.
    + destruct (Hk r (log ++ [(req, Answered r)])%list) as (calls & Hlog & Hf & Hs).
      exists ((req, Answered r) :: calls). rewrite Hlog, <- app_assoc. split; [reflexivity|].
      split.
      * intros req' m [Heq | Hin]; [discriminate | eauto].
      * intros req' r' [Heq | Hin] Hbad Hex; [| eauto].
        inversion Heq; subst. congruence.
    + exists [(req, Answered r)]. split; [reflexivity|].
      split.
      * intros req' m [Heq | []]; discriminate.
      * intros req' r' [Heq | []] _ _. inversion Heq; subst. reflexivity.
  - exists [(req, Failed m)]. split; [reflexivity|].
    split.
    + intros req' m' [Heq | []]. inversion Heq; subst. reflexivity.
    + intros req' r' [Heq | []]; discriminate.
Qed.

(** A call whose status nobody looks at. *)
Lemma contained_unchecked {A} (P : request -> Prop) (req : request) (k : response -> M A) :
  P req -> (forall r, contained P (k r)) -> contained P (bind (http ha req) k).
Proof.
  intros HP Hk log. rewrite unchecked_call_run.
  destruct (ha log req) as [r | m] eqn:Eo.
  - destruct (Hk r (log ++ [(req, Answered r)])%list) as (calls & Hlog & Hf & Hs).
    exists ((req, Answered r) :: calls). rewrite Hlog, <- app_assoc. split; [reflexivity|].
    split.
    + intros req' m [Heq | Hin]; [discriminate | eauto].
    + intros req' r' [Heq | Hin] Hbad Hex; [| eauto].
      inversion Heq; subst. contradiction.
  - exists [(req, Failed m)]. split; [reflexivity|].
    split.
    + intros req' m' [Heq | []]. inversion Heq; subst. reflexivity.
    + intros req' r' [Heq | []]; discriminate.
Qed.

Lemma contained_for_each {A B} P (f : A -> M B) (l : list A) :
  (forall x, contained P (f x)) -> contained P (for_each f l).
Proof.
  intro Hf. induction l as [| x l IH]; simpl.
  - apply contained_quiet, quiet_ret.
  - apply contained_bind; [apply Hf|]. intro y.
    apply contained_bind; [apply IH|]. intro ys.
    apply contained_quiet, quiet_ret.
Qed.

Create HintDb quiet.

#[local] Hint Resolve quiet_ret quiet_raise quiet_lift quiet_subscript
  quiet_raise_for_status quiet_response_json : quiet.

Ltac contain :=
  repeat first
    [ apply contained_checked; [reflexivity | intro]
    | apply contained_for_each; intro
    | apply contained_bind; [| intro]
    | apply contained_quiet; solve [auto with quiet] ].

Lemma get_home_state_contained P input :
  contained P (get_home_state HA_URL HA_TOKEN ha input).
Proof.
  unfold get_home_state. destruct (get_truthy "entity_ids" input).
  - contain.
  - contain. destruct (get_truthy "domain" input); contain.
Qed.

Lemma control_device_contained P input :
  contained P (control_device HA_URL HA_TOKEN ha input).
Proof.
  unfold control_device. contain.
  - apply contained_quiet. destruct a; auto with quiet.
  - apply contained_quiet. destruct (get_truthy "attributes" input); auto with quiet.
Qed.

Lemma execute_scene_contained P input :
  contained P (execute_scene HA_URL HA_TOKEN ha input).
Proof. unfold execute_scene. contain. Qed.

Lemma call_service_contained P input :
  contained P (call_service HA_URL HA_TOKEN ha input).
Proof.
  unfold call_service. contain.
  apply contained_quiet. destruct (get_truthy "data" input); auto with quiet.
Qed.

Lemma get_history_contained P input :
  contained P (get_history HA_URL HA_TOKEN ha input).
Proof. unfold get_history. contain. Qed.

Lemma control_climate_contained input :
  contained (is_mode_set HA_URL) (control_climate HA_URL HA_TOKEN ha input).
Proof.
  unfold control_climate.
  apply contained_bind; [contain|]. intro entity_id.
  apply contained_bind.
  - destruct (dict_get "hvac_mode" input).
    + apply contained_unchecked; [reflexivity|]. intro. contain.
    + contain.
  - intros _. apply contained_bind; [| intro; contain].
    destruct (dict_has "temperature" input).
    + contain.
    + contain.
Qed.


(** *** The dispatcher *)

Lemma execute_tool_try_contained name input :
  contained (fun req => name = "control_climate" /\ is_mode_set HA_URL req)
    (exec_try name input).
Proof.
  unfold execute_tool_try.
  destruct (name =? "get_home_state"); [apply get_home_state_contained|].
  destruct (name =? "control_device"); [apply control_device_contained|].
  destruct (name =? "control_climate") eqn:E.
  { apply String.eqb_eq in E.
    apply contained_weaken with (P := is_mode_set HA_URL); [tauto|].
    apply control_climate_contained. }
  destruct (name =? "execute_scene"); [apply execute_scene_contained|].
  destruct (name =? "call_service"); [apply call_service_contained|].
  destruct (name =? "get_history"); [apply get_history_contained|].
  apply contained_quiet, quiet_ret.
Qed.

Lemma missing_required_key name input log k :
  first_missing (required_of name) input = Some k ->
  exec_try name input log = (inl (KeyError k), log).
Proof.
  unfold required_of, execute_tool_try. simpl find.
  destruct (name =? "get_home_state"); [discriminate|].
  destruct (name =? "control_device").
  { simpl. unfold control_device, bind, subscript, dict_has.
    destruct (dict_get "entity_id" input); [|intros [= <-]; reflexivity].
    destruct (dict_get "action" input); [discriminate|intros [= <-]; reflexivity]. }
  destruct (name =? "control_climate").
  { simpl. unfold control_climate, bind, subscript, dict_has.
    destruct (dict_get "entity_id" input); [discriminate|intros [= <-]; reflexivity]. }
  destruct (name =? "execute_scene").
  { simpl. unfold execute_scene, bind, subscript, dict_has.
    destruct (dict_get "scene_id" input); [discriminate|intros [= <-]; reflexivity]. }
  destruct (name =? "call_service").
  { simpl. unfold call_service, bind, subscript, dict_has.
    destruct (dict_get "domain" input); [|intros [= <-]; reflexivity].
    destruct (dict_get "service" input); [discriminate|intros [= <-]; reflexivity]. }
  destruct (name =? "get_history").
  { simpl. unfold get_history, bind, subscript, dict_has.
    destruct (dict_get "entity_ids" input); [discriminate|intros [= <-]; reflexivity]. }
  discriminate.
Qed.

(** C5. A tool name outside the catalog gets the error result that names
    it, and no call is made. *)
Theorem unknown_tool_is_reported (name : string) (input : dict) (log : http_log) :
  ~ In name TOOL_NAMES ->
  exec name input log = (error_result ("Tool desconhecido: " ++ name), log).
Proof.
  intro Hout. unfold execute_tool, execute_tool_try.
  assert (Hne : forall known, In known TOOL_NAMES -> (name =? known) = false).
  { intros known Hin. apply String.eqb_neq. intros ->. exact (Hout Hin). }
  rewrite !Hne by (simpl; tauto). reflexivity.
Qed.

(** C2 (amended). [execute_tool] always returns a result and only appends
    to the call log.  When one of its calls raises (a network failure), when
    a call other than the mode-set call of [control_climate] is answered with
    a non-success status, or when a required field is missing from the
    input, the result is the one-entry object [{"error": msg}] (no success
    field), where [msg] is the text of the exception: the client's message,
    the status error's text, the quoted name of the missing field. *)
Theorem execute_tool_contains_failures (name : string) (input : dict) (log : http_log) :
  exists calls,
    snd (exec name input log) = (log ++ calls)%list /\
    (forall req m, In (req, Failed m) calls ->
       fst (exec name input log) = error_result m) /\
    (forall req r, In (req, Answered r) calls -> is_success r = false ->
       ~ (name = "control_climate" /\ is_mode_set HA_URL req) ->
       fst (exec name input log)
       = error_result (status_error_text (status_code r) (request_url req))) /\
    (forall k, first_missing (required_of name) input = Some k ->
       exec name input log = (error_result ("'" ++ k ++ "'"), log)).
Proof.
  destruct (execute_tool_try_contained name input log) as (calls & Hlog & Hf & Hs).
  exists calls. unfold execute_tool.
  destruct (exec_try name input log) as [[e | result] log'] eqn:Erun; simpl in *.
  - split; [assumption|]. split; [|split].
    + intros req m Hin. specialize (Hf req m Hin). injection Hf as ->. reflexivity.
    + intros req r Hin Hbad Hex. specialize (Hs req r Hin Hbad Hex).
      injection Hs as ->. reflexivity.
    + intros k Hk. rewrite (missing_required_key name input log k Hk) in Erun.
      injection Erun as <- <-. reflexivity.
  - split; [assumption|]. split; [|split].
    + intros req m Hin. specialize (Hf req m Hin). discriminate.
    + intros req r Hin Hbad Hex. specialize (Hs req r Hin Hbad Hex). discriminate.
    + intros k Hk. rewrite (missing_required_key name input log k Hk) in Erun.
      discriminate.
Qed.

(** *** control_climate *)

Lemma append_inj_l (p a b : string) : p ++ a = p ++ b -> a = b.
Proof.
  induction p as [| c p IH]; simpl; intro H; [assumption|].
  injection H as H. auto.
Qed.

Lemma mode_url_is_not_temperature_url :
  set_hvac_mode_url HA_URL <> set_temperature_url HA_URL.
Proof.
  unfold set_hvac_mode_url, set_temperature_url. intro H.
  apply append_inj_l in H. discriminate.
Qed.

Lemma control_climate_run input log entity_id :
  dict_get "entity_id" input = Some entity_id ->
  control_climate HA_URL HA_TOKEN ha input log =
  match dict_get "hvac_mode" input with
  | Some mode =>
      let req := mode_call HA_URL HA_TOKEN entity_id mode in
      match ha log req with
      | Answered r =>
          temperature_phase HA_URL HA_TOKEN ha input entity_id
            (log ++ [(req, Answered r)])%list
      | Failed m => (inl (TransportError m), (log ++ [(req, Failed m)])%list)
      end
  | None => temperature_phase HA_URL HA_TOKEN ha input entity_id log
  end.
Proof.
  intro He. unfold control_climate, temperature_phase, subscript, dict_has.
  unfold bind at 1. rewrite He. unfold ret at 1.
  destruct (dict_get "hvac_mode" input) as [mode |].
  - unfold bind at 1. rewrite unchecked_call_run. fold (mode_call HA_URL HA_TOKEN entity_id mode).
    destruct (ha log (mode_call HA_URL HA_TOKEN entity_id mode)) as [r | m]; [|reflexivity].
    unfold ret at 1. destruct (dict_get "temperature" input) as [t |].
    + unfold bind at 1. rewrite checked_call_run. simpl dict_set.
      fold (temperature_call HA_URL HA_TOKEN entity_id t).
      destruct (ha _ (temperature_call HA_URL HA_TOKEN entity_id t)) as [r' | m'];
        [destruct (is_success r')|]; reflexivity.
    + reflexivity.
  - unfold bind at 1. unfold ret at 1. destruct (dict_get "temperature" input) as [t |].
    + unfold bind at 1. rewrite checked_call_run. simpl dict_set.
      fold (temperature_call HA_URL HA_TOKEN entity_id t).
      destruct (ha _ (temperature_call HA_URL HA_TOKEN entity_id t)) as [r' | m'];
        [destruct (is_success r')|]; reflexivity.
    + reflexivity.
Qed.

Lemma exec_control_climate input log :
  exec "control_climate" input log =
  match control_climate HA_URL HA_TOKEN ha input log with
  | (inr result, log') => (result, log')
  | (inl e, log') => (error_result (str_exn e), log')
  end.
Proof. reflexivity. Qed.

Lemma temperature_phase_calls input entity_id log1 :
  exists calls,
    snd (temperature_phase HA_URL HA_TOKEN ha input entity_id log1) = (log1 ++ calls)%list /\
    forall req o, In (req, o) calls -> dict_has "temperature" input = true.
Proof.
  unfold temperature_phase, dict_has.
  destruct (dict_get "temperature" input) as [t |].
  - destruct (ha log1 _) as [r | m]; [destruct (is_success r)|];
      (eexists; split; [reflexivity | reflexivity]).
  - exists []. rewrite app_nil_r. split; [reflexivity|]. intros req o [].
Qed.

(** C3. When [control_climate] is given both a mode and a temperature, the
    first call it makes is the mode-set call, and the temperature-set call
    follows it (unless the mode-set call raised, which ends the invocation);
    and no invocation of [control_climate] makes a temperature-set call
    unless the input has a temperature. *)
Theorem control_climate_sets_mode_first (input : dict) (log : http_log) :
  (forall entity_id mode t,
     dict_get "entity_id" input = Some entity_id ->
     dict_get "hvac_mode" input = Some mode ->
     dict_get "temperature" input = Some t ->
     let first := mode_call HA_URL HA_TOKEN entity_id mode in
     let second := temperature_call HA_URL HA_TOKEN entity_id t in
     let log1 := (log ++ [(first, ha log first)])%list in
     snd (exec "control_climate" input log) =
     match ha log first with
     | Answered _ => (log1 ++ [(second, ha log1 second)])%list
     | Failed _ => log1
     end) /\
  (forall calls req o,
     snd (exec "control_climate" input log) = (log ++ calls)%list ->
     In (req, o) calls ->
     request_url req = set_temperature_url HA_URL ->
     dict_has "temperature" input = true).
Proof.
  split.
  - intros entity_id mode t He Hm Ht first second log1.
    rewrite exec_control_climate, (control_climate_run _ _ _ He), Hm.
    cbv zeta. fold first. subst log1.
    destruct (ha log first) as [r | m]; [|reflexivity].
    unfold temperature_phase. rewrite Ht. cbv zeta. fold second.
    destruct (ha _ second) as [r' | m']; [destruct (is_success r')|]; reflexivity.
  - intros calls req o Hlog Hin Hurl.
    rewrite exec_control_climate in Hlog.
    destruct (dict_get "entity_id" input) as [entity_id |] eqn:He.
    + rewrite (control_climate_run _ _ _ He) in Hlog.
      assert (Hsnd : forall (p : (exn + dict) * http_log),
                 snd (let (s, log') := p in
                      match s with
                      | inr result => (result, log')
                      | inl e => (error_result (str_exn e), log')
                      end) = snd p).
      { intros [[e | result] log']; reflexivity. }
      rewrite Hsnd in Hlog. clear Hsnd.
      destruct (dict_get "hvac_mode" input) as [mode |].
      * cbv zeta in Hlog.
        destruct (ha log (mode_call HA_URL HA_TOKEN entity_id mode)) as [r | m].
        -- destruct (temperature_phase_calls input entity_id
                       (log ++ [(mode_call HA_URL HA_TOKEN entity_id mode, Answered r)])%list)
             as (calls' & Hlog' & Honly).
           rewrite Hlog', <- app_assoc in Hlog. apply app_inv_head in Hlog. subst calls.
           destruct Hin as [Heq | Hin]; [| eauto].
           injection Heq as <- _. simpl in Hurl.
           exfalso. exact (mode_url_is_not_temperature_url Hurl).
        -- simpl in Hlog. apply app_inv_head in Hlog. subst calls.
           destruct Hin as [Heq | []].
           injection Heq as <- _. simpl in Hurl.
           exfalso. exact (mode_url_is_not_temperature_url Hurl).
      * destruct (temperature_phase_calls input entity_id log) as (calls' & Hlog' & Honly).
        rewrite Hlog' in Hlog. apply app_inv_head in Hlog. subst calls. eauto.
    + unfold control_climate, bind, subscript in Hlog. rewrite He in Hlog. simpl in Hlog.
      rewrite <- (app_nil_r log) in Hlog at 1. apply app_inv_head in Hlog. subst calls.
      destruct Hin.
Qed.

(** C9. The status of the mode-set call is never looked at: whatever the
    backend answers to it, [control_climate] reports success as long as the
    temperature-set call, when there is one, is answered with a success
    status; a mode-only invocation answered with a non-success status
    reports success. *)
Theorem control_climate_ignores_mode_status
    (input : dict) (log : http_log) (entity_id mode : json) (r_mode : response) :
  dict_get "entity_id" input = Some entity_id ->
  dict_get "hvac_mode" input = Some mode ->
  ha log (mode_call HA_URL HA_TOKEN entity_id mode) = Answered r_mode ->
  let log1 := (log ++ [(mode_call HA_URL HA_TOKEN entity_id mode, Answered r_mode)])%list in
  ((forall t, dict_get "temperature" input = Some t ->
      exists r_t, ha log1 (temperature_call HA_URL HA_TOKEN entity_id t) = Answered r_t /\
                  is_success r_t = true) ->
   fst (exec "control_climate" input log) = climate_success entity_id) /\
  (dict_get "temperature" input = None -> is_success r_mode = false ->
   exec "control_climate" input log = (climate_success entity_id, log1)).
Proof.
  intros He Hm Ha log1.
  rewrite exec_control_climate, (control_climate_run _ _ _ He), Hm.
  cbv zeta. rewrite Ha. fold log1. unfold temperature_phase. split.
  - intro Ht. destruct (dict_get "temperature" input) as [t |]; [|reflexivity].
    destruct (Ht t eq_refl) as (r_t & -> & ->). reflexivity.
  - intros -> _. reflexivity.
Qed.

(** *** get_home_state *)

Lemma entity_has_prefix_in_domain d s b :
  entity_has_prefix (d ++ ".") s = inr b -> in_domain d s = b.
Proof.
  unfold entity_has_prefix, in_domain, entity_id_of.
  destruct s as [| | | | | fields]; try discriminate.
  destruct (dict_get "entity_id" fields) as [[| | | id | |] |]; try discriminate.
  intros [= <-]. reflexivity.
Qed.

Lemma keep_domain_filter d l kept :
  keep_domain (d ++ ".") l = inr kept -> kept = filter (in_domain d) l.
Proof.
  revert kept. induction l as [| s l IH]; simpl; intros kept H.
  - injection H as <-. reflexivity.
  - destruct (entity_has_prefix (d ++ ".") s) as [e | b] eqn:Es; [discriminate|].
    destruct (keep_domain (d ++ ".") l) as [e | kept'] eqn:Ek; [discriminate|].
    injection H as <-. rewrite (entity_has_prefix_in_domain _ _ _ Es), (IH kept' eq_refl).
    destruct b; reflexivity.
Qed.

(** The per-entity loop, when it runs to the end: one answered query per
    identifier, in order, each with a success status and a decodable body. *)
Lemma state_queries_run ids : forall log states log',
  for_each (fun entity_id =>
              bind (http ha (state_call HA_URL HA_TOKEN entity_id))
                (fun r => bind (raise_for_status (state_url HA_URL entity_id) r)
                            (fun _ => response_json r))) ids log
  = (inr states, log') ->
  exists rs,
    length rs = length ids /\
    log' = (log ++ map (fun p => (state_call HA_URL HA_TOKEN (fst p), Answered (snd p)))
                     (combine ids rs))%list /\
    Forall (fun r => is_success r = true) rs /\
    map body rs = map inr states.
Proof.
  induction ids as [| id ids IH]; intros log states log' Hrun.
  - simpl in Hrun. injection Hrun as <- <-. exists []. rewrite app_nil_r.
    repeat split; constructor.
  - simpl in Hrun. unfold bind at 1 in Hrun. rewrite checked_call_run in Hrun.
    destruct (ha log (state_call HA_URL HA_TOKEN id)) as [r | m] eqn:Ea; [|discriminate].
    destruct (is_success r) eqn:Es; [|discriminate].
    unfold response_json in Hrun. destruct (body r) as [msg | v] eqn:Eb; [discriminate|].
    unfold ret at 1 in Hrun. unfold bind at 1 in Hrun.
    destruct (for_each _ ids _) as [[e | vs] log2] eqn:Erest; [discriminate|].
    injection Hrun as <- <-.
    destruct (IH _ _ _ Erest) as (rs & Hlen & Hlog & Hok & Hbody).
    exists (r :: rs). simpl. rewrite Hlen, Hlog, <- app_assoc, Eb, Hbody.
    repeat split. constructor; assumption.
Qed.

Lemma keep_domain_named d l :
  Forall has_identifier l -> keep_domain (d ++ ".") l = inr (filter (in_domain d) l).
Proof.
  induction l as [| s l IH]; intro Hall; [reflexivity|].
  inversion Hall as [| ? ? [id Hid] Hall']; subst. simpl.
  assert (Hs : entity_has_prefix (d ++ ".") s = inr (in_domain d s)).
  { unfold entity_has_prefix, in_domain. rewrite Hid. unfold entity_id_of in Hid.
    destruct s as [| | | | | fields]; try discriminate.
    destruct (dict_get "entity_id" fields) as [[| | | id' | |] |]; try discriminate.
    injection Hid as ->. reflexivity. }
  rewrite Hs, (IH Hall'). destruct (in_domain d s); reflexivity.
Qed.

(** The per-entity loop against a backend that answers every one of the
    queries with a success status and a body that decodes. *)
Lemma state_queries_succeed ids :
  (forall log' id, In id ids ->
     exists r v, ha log' (state_call HA_URL HA_TOKEN id) = Answered r /\
                 is_success r = true /\ body r = inr v) ->
  forall log, exists rs states,
    length rs = length ids /\
    Forall (fun r => is_success r = true) rs /\
    map body rs = map inr states /\
    for_each (fun entity_id =>
                bind (http ha (state_call HA_URL HA_TOKEN entity_id))
                  (fun r => bind (raise_for_status (state_url HA_URL entity_id) r)
                              (fun _ => response_json r))) ids log
    = (inr states,
       (log ++ map (fun p => (state_call HA_URL HA_TOKEN (fst p), Answered (snd p)))
                 (combine ids rs))%list).
Proof.
  induction ids as [| id ids IH]; intros Hha log.
  - exists [], []. rewrite app_nil_r. repeat split. constructor.
  - destruct (Hha log id (or_introl eq_refl)) as (r & v & Ha & Hs & Hb).
    destruct (IH (fun log' id' Hin => Hha log' id' (or_intror Hin))
                (log ++ [(state_call HA_URL HA_TOKEN id, Answered r)])%list)
      as (rs & states & Hlen & Hall & Hbody & Hrun).
    exists (r :: rs), (v :: states). simpl length. rewrite Hlen.
    split; [reflexivity|]. split; [constructor; assumption|].
    split; [simpl; rewrite Hb, Hbody; reflexivity|].
    change (for_each ?f (id :: ids)) with
      (bind (f id) (fun y => bind (for_each f ids) (fun ys => ret (y :: ys)))).
    unfold bind at 1. rewrite checked_call_run, Ha, Hs.
    unfold response_json at 1. rewrite Hb. unfold ret at 1. unfold bind at 1.
    rewrite Hrun. unfold ret. simpl. rewrite <- app_assoc. reflexivity.
Qed.

(** C6. [get_home_state] against a backend that answers its queries.
    Without identifiers (the list is missing or empty) and with a domain
    filter [d] (a non-empty string), when the snapshot query is answered
    with a success status and a list of state objects that have an
    identifier, it makes that one query and returns exactly the entities of
    the snapshot whose identifier starts with [d.], in snapshot order.  With
    a non-empty list of identifiers, when the backend answers the state
    query of each of them with a success status and a body that decodes, it
    makes one state query per identifier, in order, and returns the bodies
    of the answers in the same order. *)
Theorem get_home_state_selects (input : dict) (log : http_log) :
  (forall d r snapshot,
     get_truthy "entity_ids" input = None ->
     dict_get "domain" input = Some (JStr d) -> d <> EmptyString ->
     ha log (snapshot_call HA_URL HA_TOKEN) = Answered r ->
     is_success r = true ->
     body r = inr (JArr snapshot) ->
     Forall has_identifier snapshot ->
     exec "get_home_state" input log
     = ([("states", JArr (filter (in_domain d) snapshot))],
        (log ++ [(snapshot_call HA_URL HA_TOKEN, Answered r)])%list) /\
     (forall s, In s (filter (in_domain d) snapshot) <->
                In s snapshot /\ exists id, entity_id_of s = Some id /\
                                            String.prefix (d ++ ".") id = true)) /\
  (forall ids,
     get_truthy "entity_ids" input = Some (JArr ids) ->
     (forall log' id, In id ids ->
        exists r v, ha log' (state_call HA_URL HA_TOKEN id) = Answered r /\
                    is_success r = true /\ body r = inr v) ->
     exists rs states,
       length rs = length ids /\
       Forall (fun r => is_success r = true) rs /\
       map body rs = map inr states /\
       exec "get_home_state" input log
       = ([("states", JArr states)],
          (log ++ map (fun p => (state_call HA_URL HA_TOKEN (fst p), Answered (snd p)))
                    (combine ids rs))%list)).
Proof.
  assert (Hrun : exec "get_home_state" input log =
                 match get_home_state HA_URL HA_TOKEN ha input log with
                 | (inr result, log') => (result, log')
                 | (inl e, log') => (error_result (str_exn e), log')
                 end) by reflexivity.
  rewrite Hrun. clear Hrun. split.
  - intros d r snapshot Hids Hdom Hd Ha Hs Hbody Hnamed. split.
    + unfold get_home_state. rewrite Hids.
      fold (snapshot_call HA_URL HA_TOKEN). rewrite checked_call_run, Ha, Hs.
      unfold response_json. rewrite Hbody. unfold bind at 1, ret at 1.
      assert (Ht : get_truthy "domain" input = Some (JStr d)).
      { unfold get_truthy. rewrite Hdom. simpl.
        destruct (String.eqb_spec d EmptyString); [contradiction | reflexivity]. }
      rewrite Ht. simpl py_iter. simpl py_str. unfold lift at 1, bind at 1, ret at 1.
      rewrite (keep_domain_named d snapshot Hnamed). reflexivity.
    + intro s. rewrite filter_In. unfold in_domain.
      destruct (entity_id_of s) as [id |].
      * split; intros [Hin Hp]; (split; [assumption|]).
        -- exists id. split; [reflexivity | assumption].
        -- destruct Hp as (id' & [= <-] & Hp). assumption.
      * split; intros [Hin Hp]; [discriminate|].
        destruct Hp as (id' & Hno & _). discriminate.
  - intros ids Hids Hha.
    destruct (state_queries_succeed ids Hha log)
      as (rs & states & Hlen & Hall & Hbody & Hrun).
    exists rs, states.
    split; [assumption|]. split; [assumption|]. split; [assumption|].
    unfold get_home_state. rewrite Hids. simpl py_iter.
    unfold lift at 1, bind at 1, ret at 1. unfold bind at 1.
    unfold state_call in Hrun. rewrite Hrun. reflexivity.
Qed.

End ExecutorFacts.

Section OrchestratorFacts.

Context {rt : Runtime}.
Variables HA_URL HA_TOKEN BRIDGE_API_KEY : string.
Variable ha : backend.
Variable llm : llm_oracle.

Local Abbreviation exec := (execute_tool HA_URL HA_TOKEN ha).
Local Abbreviation run_blocks := (run_tools HA_URL HA_TOKEN ha).
Local Abbreviation loop := (tool_loop HA_URL HA_TOKEN ha llm).
Local Abbreviation process := (process_command_with_claude HA_URL HA_TOKEN ha llm).
Local Abbreviation endpoint := (process_alexa_command HA_URL HA_TOKEN BRIDGE_API_KEY ha llm).

Lemma create_message_run msgs w :
  create_message llm msgs w =
  let req := llm_request_of msgs in
  (match llm (llm_calls w) req with
   | Replied r => inr r
   | LLMFailed msg => inl (APIError msg)
   end,
   mkWorld (llm_calls w ++ [(req, llm (llm_calls w) req)])%list (http_calls w)).
Proof.
  unfold create_message, llm_request_of. cbv zeta.
  destruct (llm (llm_calls w) _); reflexivity.
Qed.

(** *** The loop and the call log *)

(** The loop only appends to the log of LLM calls; every call it makes
    carries the three turns of [loop_messages]; and a call that failed is
    the last one and decides the outcome. *)
Lemma tool_loop_calls fuel user_message : forall response w,
  exists calls,
    llm_calls (snd (loop fuel user_message response w)) = (llm_calls w ++ calls)%list /\
    Forall (fun c => length (messages (fst c)) = 3) calls /\
    (forall req msg, In (req, LLMFailed msg) calls ->
       fst (loop fuel user_message response w) = Some (inl (APIError msg))).
Proof.
  induction fuel as [| fuel IH]; intros response w; simpl.
  - exists []. rewrite app_nil_r.
    destruct (stop_reason response =? "tool_use");
      (split; [reflexivity | split; [constructor | intros ? ? []]]).
  - destruct (stop_reason response =? "tool_use").
    + destruct (run_blocks (content response) (http_calls w)) as [tool_results log'].
      rewrite create_message_run. cbv zeta. simpl llm_calls.
      set (req := llm_request_of (loop_messages user_message response tool_results)).
      destruct (llm (llm_calls w) req) as [r | msg] eqn:Eo.
      * match goal with
        | |- context [loop fuel user_message r ?w1] =>
            destruct (IH r w1) as (calls & Hlog & Hlen & Hfail)
        end.
        exists ((req, Replied r) :: calls). rewrite Hlog. simpl llm_calls.
        rewrite <- app_assoc. split; [reflexivity|]. split.
        -- constructor; [reflexivity | assumption].
        -- intros req' msg [Heq | Hin]; [discriminate | eauto].
      * exists [(req, LLMFailed msg)]. simpl. split; [reflexivity|]. split.
        -- constructor; [reflexivity | constructor].
        -- intros req' msg' [Heq | []]. injection Heq as _ <-. reflexivity.
    + exists []. rewrite app_nil_r.
      split; [reflexivity | split; [constructor | intros ? ? []]].
Qed.

Lemma process_calls fuel command context w :
  exists calls,
    llm_calls (snd (process fuel command context w)) = (llm_calls w ++ calls)%list /\
    (forall req msg, In (req, LLMFailed msg) calls ->
       fst (process fuel command context w) = Some (apology (APIError msg))).
Proof.
  unfold process_command_with_claude. rewrite create_message_run. cbv zeta.
  set (user_message := build_user_message command context).
  set (req := llm_request_of [mkTurn "user" (Plain user_message)]).
  destruct (llm (llm_calls w) req) as [r | msg] eqn:Eo.
  - match goal with
    | |- context [loop fuel user_message r ?w1] =>
        destruct (tool_loop_calls fuel user_message r w1) as (calls & Hlog & _ & Hfail);
        destruct (loop fuel user_message r w1) as [[[e | final] |] w2] eqn:Eloop
    end; simpl in *;
      (exists ((req, Replied r) :: calls); rewrite Hlog, <- app_assoc;
       split; [reflexivity|];
       intros req' msg [Heq | Hin]; [discriminate|];
       specialize (Hfail req' msg Hin); try discriminate).
    injection Hfail as ->. reflexivity.
  - exists [(req, LLMFailed msg)]. simpl. split; [reflexivity|].
    intros req' msg' [Heq | []]. injection Heq as _ <-. reflexivity.
Qed.


Lemma run_tools_none blocks log :
  tool_uses blocks = [] -> run_blocks blocks log = ([], log).
Proof.
  induction blocks as [| b blocks IH]; simpl; [reflexivity|].
  destruct b; [assumption | discriminate | assumption].
Qed.

Lemma run_tools_single blocks log id name input :
  tool_uses blocks = [(id, name, input)] ->
  run_blocks blocks log =
  ([mkToolResult "tool_result" id (json_dumps (JObj (fst (exec name input log))))],
   snd (exec name input log)).
Proof.
  induction blocks as [| b blocks IH]; simpl; [discriminate|].
  destruct b as [text | id' name' input' | type]; [assumption | | assumption].
  intros [= -> -> -> Hrest].
  destruct (exec name input log) as [result log1]. simpl.
  rewrite (run_tools_none _ _ Hrest). reflexivity.
Qed.

(** C7. When the first response does not ask for tools, that call is the
    only LLM call of the request, no backend call is made, and the answer is
    the concatenation of the text fragments of the response, stripped. *)
Theorem no_tool_use_single_call
    (fuel : nat) (command : string) (context : dict) (w : world) (r : llm_response) :
  let req := llm_request_of [mkTurn "user" (Plain (build_user_message command context))] in
  llm (llm_calls w) req = Replied r ->
  stop_reason r <> "tool_use" ->
  process fuel command context w =
  (Some (strip (final_text (content r))),
   mkWorld (llm_calls w ++ [(req, Replied r)])%list (http_calls w)).
Proof.
  intros req Hr Hstop. unfold process_command_with_claude.
  rewrite create_message_run. cbv zeta. fold req. rewrite Hr.
  apply String.eqb_neq in Hstop.
  destruct fuel; simpl; rewrite Hstop; reflexivity.
Qed.

(** C8. When the first response asks for exactly one tool and the second
    for none, two LLM calls are made; the second carries the command turn,
    the assistant turn with the fragments of the first response, and one
    tool-results turn whose single entry bears the identifier of the
    requested invocation; the answer is the text of the second response. *)
Theorem one_tool_round_trip
    (fuel : nat) (command : string) (context : dict) (w : world)
    (r1 r2 : llm_response) (id name : string) (input : dict) :
  let user_message := build_user_message command context in
  let req1 := llm_request_of [mkTurn "user" (Plain user_message)] in
  let entry := mkToolResult "tool_result" id
                 (json_dumps (JObj (fst (exec name input (http_calls w))))) in
  let req2 := llm_request_of [ mkTurn "user" (Plain user_message);
                               mkTurn "assistant" (Blocks (content r1));
                               mkTurn "user" (Results [entry]) ] in
  llm (llm_calls w) req1 = Replied r1 ->
  stop_reason r1 = "tool_use" ->
  tool_uses (content r1) = [(id, name, input)] ->
  (forall req, llm (llm_calls w ++ [(req1, Replied r1)])%list req = Replied r2) ->
  stop_reason r2 <> "tool_use" ->
  tool_use_id entry = id /\
  process (S fuel) command context w =
  (Some (strip (final_text (content r2))),
   mkWorld (llm_calls w ++ [(req1, Replied r1); (req2, Replied r2)])%list
           (snd (exec name input (http_calls w)))).
Proof.
  intros user_message req1 entry req2 H1 Hstop1 Huses H2 Hstop2.
  split; [reflexivity|].
  unfold process_command_with_claude. rewrite create_message_run. cbv zeta.
  fold user_message. fold req1. rewrite H1.
  apply String.eqb_neq in Hstop2.
  simpl tool_loop. rewrite Hstop1. simpl (_ =? _).
  rewrite (run_tools_single _ _ _ _ _ Huses).
  rewrite create_message_run. cbv zeta. simpl llm_calls.
  unfold loop_messages. fold entry. fold req2. rewrite (H2 req2).
  replace ((llm_calls w ++ [(req1, Replied r1)]) ++ [(req2, Replied r2)])%list
    with (llm_calls w ++ [(req1, Replied r1); (req2, Replied r2)])%list
    by (rewrite <- app_assoc; reflexivity).
  destruct fuel; simpl; rewrite Hstop2; reflexivity.
Qed.

Lemma key_matches_own : key_matches BRIDGE_API_KEY (Some BRIDGE_API_KEY) = true.
Proof. simpl. apply String.eqb_refl. Qed.

Lemma endpoint_authenticated fuel request x_api_key w :
  key_matches BRIDGE_API_KEY x_api_key = true ->
  endpoint fuel request x_api_key w =
  let context := match context request with Some c => c | None => [] end in
  (option_map (fun text => inr (mkAlexaResponse text true (Some "Casa Inteligente") (Some text)))
     (fst (process fuel (command request) context w)),
   snd (process fuel (command request) context w)).
Proof.
  intro Hkey. unfold process_alexa_command. rewrite Hkey. simpl negb. cbv iota zeta.
  destruct (process fuel (command request) _ w) as [[text |] w']; reflexivity.
Qed.

(** C4. When an LLM call of an authenticated request fails, the failure is
    caught: the orchestrator returns the apology text (the fixed Portuguese
    apology followed by the text of the failure), and the endpoint returns a
    response envelope, not an HTTP error, with that text as its speech. *)
Theorem llm_failure_becomes_apology
    (fuel : nat) (request : AlexaRequest) (w : world)
    (calls : llm_log) (req : llm_request) (msg : string) :
  let context := match context request with Some c => c | None => [] end in
  let text := "Desculpe, tive um problema ao processar seu pedido: " ++ msg in
  llm_calls (snd (process fuel (command request) context w)) = (llm_calls w ++ calls)%list ->
  In (req, LLMFailed msg) calls ->
  fst (process fuel (command request) context w) = Some text /\
  fst (endpoint fuel request (Some BRIDGE_API_KEY) w)
  = Some (inr (mkAlexaResponse text true (Some "Casa Inteligente") (Some text))).
Proof.
  intros context text Hlog Hin.
  destruct (process_calls fuel (command request) context w) as (calls' & Hlog' & Hfail).
  rewrite Hlog' in Hlog. apply app_inv_head in Hlog. subst calls'.
  specialize (Hfail req msg Hin).
  split; [exact Hfail|].
  rewrite (endpoint_authenticated _ _ _ _ key_matches_own). cbv zeta. fold context.
  simpl fst. rewrite Hfail. reflexivity.
Qed.

(** C10. Whatever an authenticated request returns is a response envelope
    that ends the session, is titled "Casa Inteligente", and shows as its
    body the very text it speaks; that text is the orchestrator's answer. *)
Theorem bridge_response_shape
    (fuel : nat) (request : AlexaRequest) (x_api_key : option string)
    (w w' : world) (out : HTTPException + AlexaResponse) :
  key_matches BRIDGE_API_KEY x_api_key = true ->
  endpoint fuel request x_api_key w = (Some out, w') ->
  exists resp,
    out = inr resp /\
    should_end_session resp = true /\
    card_title resp = Some "Casa Inteligente" /\
    card_content resp = Some (speech resp) /\
    fst (process fuel (command request)
           (match context request with Some c => c | None => [] end) w)
    = Some (speech resp).
Proof.
  intros Hkey Hrun. rewrite (endpoint_authenticated _ _ _ _ Hkey) in Hrun. cbv zeta in Hrun.
  destruct (process fuel (command request) _ w) as [[text |] w2]; simpl in Hrun;
    [|discriminate].
  injection Hrun as <- <-. eexists. repeat split.
Qed.

End OrchestratorFacts.

(** * The properties at work on sample runs *)

(** C1. Two tool-use iterations: the three calls carry one, three and
    three turns (not one, three and five), and the list of the third call
    does not extend the list of the second: the first exchange is gone. *)
Theorem later_call_drops_earlier_turns :
  let run := process_command_with_claude (rt := simple_runtime) demo_url demo_token
               two_step_backend two_step_model 5 "apague a luz da sala" [] empty_world in
  let sent := map (fun c => messages (fst c)) (llm_calls (snd run)) in
  fst run = Some "Apaguei a luz da sala." /\
  map (@length turn) sent = [1; 3; 3]%nat /\
  forall extra, nth 2 sent [] <> (nth 1 sent [] ++ extra)%list.
Proof.
  split; [reflexivity|]. split; [reflexivity|].
  intros extra H. vm_compute in H. discriminate H.
Qed.

Lemma unknown_tool_is_reported_witness :
  execute_tool (rt := simple_runtime) demo_url demo_token two_step_backend
    "open_garage" [("door", JStr "main")] []
  = (error_result "Tool desconhecido: open_garage", []).
Proof.
  apply (unknown_tool_is_reported (rt := simple_runtime) demo_url demo_token
           two_step_backend "open_garage" [("door", JStr "main")] []).
  simpl. intuition discriminate.
Defined.

(** C2, as the specification words it, fails: a backend answering 500 to
    [execute_scene] yields an object with an error string and no success
    flag, and a network failure whose message is empty yields an empty
    error string. *)
Lemma failure_result_has_no_success_flag :
  let result := fst (execute_tool (rt := simple_runtime) demo_url demo_token
                       (constant_backend server_error) "execute_scene" scene_input []) in
  let silent := fst (execute_tool (rt := simple_runtime) demo_url demo_token
                       (constant_backend (Failed EmptyString)) "execute_scene" scene_input []) in
  result = error_result
             "HTTP status 500 for url 'http://homeassistant.local:8123/api/services/scene/turn_on'" /\
  dict_get "success" result = None /\
  ~ reports_failure result /\
  silent = error_result EmptyString /\
  ~ reports_failure silent.
Proof.
  cbv zeta. split; [reflexivity|]. split; [reflexivity|]. split; [|split].
  - intros [Hflag _]. vm_compute in Hflag. discriminate.
  - reflexivity.
  - intros [Hflag _]. vm_compute in Hflag. discriminate.
Qed.

Lemma execute_tool_contains_failures_witness :
  fst (execute_tool (rt := simple_runtime) demo_url demo_token
         (constant_backend server_error) "execute_scene" scene_input [])
  = error_result (@status_error_text simple_runtime 500 (scene_url demo_url)) /\
  execute_tool (rt := simple_runtime) demo_url demo_token
    (constant_backend server_error) "control_device" [("entity_id", JStr "light.sala")] []
  = (error_result "'action'", []).
Proof.
  destruct (execute_tool_contains_failures (rt := simple_runtime) demo_url demo_token
              (constant_backend server_error) "execute_scene" scene_input [])
    as (calls & Hlog & _ & Hstatus & _).
  destruct (execute_tool_contains_failures (rt := simple_runtime) demo_url demo_token
              (constant_backend server_error) "control_device"
              [("entity_id", JStr "light.sala")] [])
    as (_ & _ & _ & _ & Hkey).
  split.
  - vm_compute in Hlog. subst calls.
    apply (Hstatus (POST (scene_url demo_url) (headers demo_token)
                      [("entity_id", JStr "scene.cinema")])
             (mkResponse 500 (inl "Expecting value: line 1 column 1 (char 0)"))).
    + left. reflexivity.
    + reflexivity.
    + intros [Hname _]. discriminate.
  - apply (Hkey "action"). reflexivity.
Defined.

Lemma control_climate_sets_mode_first_witness :
  snd (execute_tool (rt := simple_runtime) demo_url demo_token
         (constant_backend server_error) "control_climate" climate_input [])
  = [ (mode_call demo_url demo_token (JStr "climate.sala") (JStr "cool"), server_error);
      (temperature_call demo_url demo_token (JStr "climate.sala") (JNum (inject_Z 22)),
       server_error) ] /\
  dict_has "temperature" climate_input = true.
Proof.
  destruct (control_climate_sets_mode_first (rt := simple_runtime) demo_url demo_token
              (constant_backend server_error) climate_input []) as [Horder Honly].
  split.
  - exact (Horder (JStr "climate.sala") (JStr "cool") (JNum (inject_Z 22))
             eq_refl eq_refl eq_refl).
  - apply (Honly
             [ (mode_call demo_url demo_token (JStr "climate.sala") (JStr "cool"), server_error);
               (temperature_call demo_url demo_token (JStr "climate.sala")
                  (JNum (inject_Z 22)), server_error) ]
             (temperature_call demo_url demo_token (JStr "climate.sala") (JNum (inject_Z 22)))
             server_error).
    + reflexivity.
    + right. left. reflexivity.
    + reflexivity.
Defined.

Lemma control_climate_ignores_mode_status_witness :
  is_success (mkResponse 500 (inl "Expecting value: line 1 column 1 (char 0)")) = false /\
  execute_tool (rt := simple_runtime) demo_url demo_token
    (constant_backend server_error) "control_climate" mode_only_input []
  = (climate_success (JStr "climate.sala"),
     [(mode_call demo_url demo_token (JStr "climate.sala") (JStr "cool"), server_error)]) /\
  fst (execute_tool (rt := simple_runtime) demo_url demo_token
         (scripted_backend [server_error; ok JNull]) "control_climate" climate_input [])
  = climate_success (JStr "climate.sala").
Proof.
  split; [reflexivity|]. split.
  - apply (control_climate_ignores_mode_status (rt := simple_runtime) demo_url demo_token
             (constant_backend server_error) mode_only_input []
             (JStr "climate.sala") (JStr "cool")
             (mkResponse 500 (inl "Expecting value: line 1 column 1 (char 0)")));
      reflexivity.
  - apply (control_climate_ignores_mode_status (rt := simple_runtime) demo_url demo_token
             (scripted_backend [server_error; ok JNull]) climate_input []
             (JStr "climate.sala") (JStr "cool")
             (mkResponse 500 (inl "Expecting value: line 1 column 1 (char 0)")));
      try reflexivity.
    intros t [= <-]. exists (mkResponse 200 (inr JNull)). split; reflexivity.
Defined.

Lemma get_home_state_selects_witness :
  execute_tool (rt := simple_runtime) demo_url demo_token
    (constant_backend (ok (JArr snapshot))) "get_home_state"
    [("entity_ids", JArr []); ("domain", JStr "light")] []
  = ([("states", JArr [light_sala; light_quarto])],
     [(snapshot_call demo_url demo_token, ok (JArr snapshot))]) /\
  exists rs states,
    length rs = 2%nat /\
    map body rs = map inr states /\
    execute_tool (rt := simple_runtime) demo_url demo_token
      (directory_backend
         [("http://homeassistant.local:8123/api/states/light.quarto", light_quarto);
          ("http://homeassistant.local:8123/api/states/light.sala", light_sala)])
      "get_home_state"
      [("entity_ids", JArr [JStr "light.quarto"; JStr "light.sala"])] []
    = ([("states", JArr states)],
       map (fun p => (state_call (rt := simple_runtime) demo_url demo_token (fst p),
                      Answered (snd p)))
         (combine [JStr "light.quarto"; JStr "light.sala"] rs)).
Proof.
  split.
  - destruct (get_home_state_selects (rt := simple_runtime) demo_url demo_token
                (constant_backend (ok (JArr snapshot)))
                [("entity_ids", JArr []); ("domain", JStr "light")] [])
      as [Hdomain _].
    apply (Hdomain "light" (mkResponse 200 (inr (JArr snapshot))) snapshot);
      try reflexivity.
    + discriminate.
    + repeat constructor; eexists; reflexivity.
  - destruct (get_home_state_selects (rt := simple_runtime) demo_url demo_token
                (directory_backend
                   [("http://homeassistant.local:8123/api/states/light.quarto", light_quarto);
                    ("http://homeassistant.local:8123/api/states/light.sala", light_sala)])
                [("entity_ids", JArr [JStr "light.quarto"; JStr "light.sala"])] [])
      as [_ Hids].
    destruct (Hids [JStr "light.quarto"; JStr "light.sala"] eq_refl)
      as (rs & states & Hlen & _ & Hbody & Hrun).
    + intros log' id [<- | [<- | []]]; eexists; eexists;
        (split; [reflexivity | split; reflexivity]).
    + exists rs, states. split; [assumption|]. split; assumption.
Defined.

Lemma no_tool_use_single_call_witness :
  process_command_with_claude (rt := simple_runtime) demo_url demo_token
    two_step_backend (scripted_model [Replied done]) 0 "apague a luz da sala" [] empty_world
  = (Some "Apaguei a luz da sala.",
     mkWorld [(llm_request_of
                 [mkTurn "user" (Plain "O usuário disse via Alexa: 'apague a luz da sala'")],
               Replied done)] []).
Proof.
  apply (no_tool_use_single_call (rt := simple_runtime) demo_url demo_token
           two_step_backend (scripted_model [Replied done]) 0 "apague a luz da sala" []
           empty_world done).
  - reflexivity.
  - discriminate.
Defined.

Lemma one_tool_round_trip_witness :
  map (fun c => messages (fst c))
    (llm_calls (snd (process_command_with_claude (rt := simple_runtime) demo_url demo_token
                       two_step_backend one_step_model 1 "apague a luz da sala" []
                       empty_world)))
  = [ [mkTurn "user" (Plain "O usuário disse via Alexa: 'apague a luz da sala'")];
      [ mkTurn "user" (Plain "O usuário disse via Alexa: 'apague a luz da sala'");
        mkTurn "assistant" (Blocks (content ask_lights));
        mkTurn "user"
          (Results [mkToolResult "tool_result" "toolu_01"
                      (show_json (JObj [("states", JArr [light_sala; light_quarto])]))]) ] ].
Proof.
  destruct (one_tool_round_trip (rt := simple_runtime) demo_url demo_token
              two_step_backend one_step_model 0 "apague a luz da sala" [] empty_world
              ask_lights done "toolu_01" "get_home_state" [("domain", JStr "light")])
    as [_ Hrun].
  - reflexivity.
  - reflexivity.
  - reflexivity.
  - intro req. reflexivity.
  - discriminate.
  - rewrite Hrun. reflexivity.
Defined.

Lemma llm_failure_becomes_apology_witness :
  fst (process_alexa_command (rt := simple_runtime) demo_url demo_token demo_key
         two_step_backend (scripted_model [Replied ask_lights; LLMFailed "Connection error."])
         3 lights_request (Some demo_key) empty_world)
  = Some (inr (mkAlexaResponse
                 "Desculpe, tive um problema ao processar seu pedido: Connection error."
                 true (Some "Casa Inteligente")
                 (Some "Desculpe, tive um problema ao processar seu pedido: Connection error."))).
Proof.
  set (failing := scripted_model [Replied ask_lights; LLMFailed "Connection error."]).
  set (run := process_command_with_claude (rt := simple_runtime) demo_url demo_token
                two_step_backend failing 3 "apague a luz da sala" [] empty_world).
  apply (llm_failure_becomes_apology (rt := simple_runtime) demo_url demo_token demo_key
           two_step_backend failing 3 lights_request empty_world
           (llm_calls (snd run))
           (llm_request_of
              (loop_messages "O usuário disse via Alexa: 'apague a luz da sala'" ask_lights
                 [mkToolResult "tool_result" "toolu_01"
                    (show_json (JObj [("states", JArr [light_sala; light_quarto])]))]))
           "Connection error.").
  - reflexivity.
  - right. left. reflexivity.
Defined.

Lemma bridge_response_shape_witness :
  exists resp,
    fst (process_alexa_command (rt := simple_runtime) demo_url demo_token demo_key
           two_step_backend two_step_model 2 lights_request (Some demo_key) empty_world)
    = Some (inr resp) /\
    speech resp = "Apaguei a luz da sala." /\
    should_end_session resp = true /\
    card_title resp = Some "Casa Inteligente" /\
    card_content resp = Some (speech resp).
Proof.
  set (run := process_alexa_command (rt := simple_runtime) demo_url demo_token demo_key
                two_step_backend two_step_model 2 lights_request (Some demo_key) empty_world).
  destruct (bridge_response_shape (rt := simple_runtime) demo_url demo_token demo_key
              two_step_backend two_step_model 2 lights_request (Some demo_key)
              empty_world (snd run)
              (inr (mkAlexaResponse "Apaguei a luz da sala." true
                      (Some "Casa Inteligente") (Some "Apaguei a luz da sala."))))
    as (resp & Hout & Hend & Htitle & Hbody & _).
  - reflexivity.
  - reflexivity.
  - injection Hout as <-. eexists. repeat split.
Defined.

(** * Further properties of the executor *)

Section ExecutorMore.

Context {rt : Runtime}.
Variables HA_URL HA_TOKEN : string.
Variable ha : backend.

Local Abbreviation exec := (execute_tool HA_URL HA_TOKEN ha).
Local Abbreviation exec_try := (execute_tool_try HA_URL HA_TOKEN ha).

Create HintDb calm.

#[local] Hint Resolve quiet_ret quiet_raise quiet_lift quiet_subscript
  quiet_raise_for_status quiet_response_json : calm.

Lemma exec_log name input log :
  snd (exec name input log) = snd (exec_try name input log).
Proof.
  unfold execute_tool. destruct (exec_try name input log) as [[e | r] log']; reflexivity.
Qed.

(** *** What the calls look like *)

Lemma only_calls_quiet {A} P (c : M A) : quiet c -> only_calls P c.
Proof.
  intros Hq log. exists []. rewrite app_nil_r. split; [apply Hq | constructor].
Qed.

Lemma only_calls_bind {A B} P (c : M A) (k : A -> M B) :
  only_calls P c -> (forall a, only_calls P (k a)) -> only_calls P (bind c k).
Proof.
  intros Hc Hk log. destruct (Hc log) as (calls1 & Hlog1 & HP1).
  unfold bind. destruct (c log) as [[e | a] log1]; simpl in *.
  - exists calls1. split; assumption.
  - destruct (Hk a log1) as (calls2 & Hlog2 & HP2).
    exists (calls1 ++ calls2)%list. subst log1. rewrite app_assoc.
    split; [assumption | apply Forall_app; split; assumption].
Qed.

Lemma only_calls_http {A} (P : request -> Prop) (req : request) (k : response -> M A) :
  P req -> (forall r, only_calls P (k r)) -> only_calls P (bind (http ha req) k).
Proof.
  intros HP Hk log. rewrite unchecked_call_run.
  destruct (ha log req) as [r | m].
  - destruct (Hk r (log ++ [(req, Answered r)])%list) as (calls & Hlog & Hall).
    exists ((req, Answered r) :: calls). rewrite Hlog, <- app_assoc.
    split; [reflexivity | constructor; assumption].
  - exists [(req, Failed m)]. split; [reflexivity | constructor; [assumption | constructor]].
Qed.

Lemma only_calls_for_each {A B} P (f : A -> M B) (l : list A) :
  (forall x, only_calls P (f x)) -> only_calls P (for_each f l).
Proof.
  intro Hf. induction l as [| x l IH]; simpl.
  - apply only_calls_quiet, quiet_ret.
  - apply only_calls_bind; [apply Hf|]. intro y.
    apply only_calls_bind; [apply IH|]. intro ys.
    apply only_calls_quiet, quiet_ret.
Qed.

Lemma prefix_append (p s : string) : String.prefix p (p ++ s) = true.
Proof.
  induction p as [| c p IH]; simpl; [destruct s; reflexivity|].
  destruct (ascii_dec c c); [assumption | contradiction].
Qed.

Ltac addressed :=
  repeat first
    [ apply only_calls_http;
      [ split; [reflexivity | split; [apply prefix_append | reflexivity]] | intro ]
    | apply only_calls_for_each; intro
    | apply only_calls_bind; [| intro]
    | apply only_calls_quiet; solve [auto with calm] ].

Lemma execute_tool_try_addressed name input :
  only_calls (well_addressed HA_URL HA_TOKEN name) (exec_try name input).
Proof.
  unfold execute_tool_try.
  destruct (name =? "get_home_state") eqn:E1.
  { apply String.eqb_eq in E1. subst name. unfold get_home_state.
    destruct (get_truthy "entity_ids" input).
    - addressed.
    - addressed. destruct (get_truthy "domain" input); addressed. }
  destruct (name =? "control_device") eqn:E2.
  { apply String.eqb_eq in E2. subst name. unfold control_device. addressed.
    - apply only_calls_quiet. destruct a; auto with calm.
    - apply only_calls_quiet. destruct (get_truthy "attributes" input); auto with calm. }
  destruct (name =? "control_climate") eqn:E3.
  { apply String.eqb_eq in E3. subst name. unfold control_climate.
    apply only_calls_bind; [addressed|]. intro entity_id.
    apply only_calls_bind.
    - destruct (dict_get "hvac_mode" input); addressed.
    - intros _. apply only_calls_bind; [| intro; addressed].
      destruct (dict_has "temperature" input); addressed. }
  destruct (name =? "execute_scene") eqn:E4.
  { apply String.eqb_eq in E4. subst name. unfold execute_scene. addressed. }
  destruct (name =? "call_service") eqn:E5.
  { apply String.eqb_eq in E5. subst name. unfold call_service. addressed.
    apply only_calls_quiet. destruct (get_truthy "data" input); auto with calm. }
  destruct (name =? "get_history") eqn:E6.
  { apply String.eqb_eq in E6. subst name. unfold get_history. addressed. }
  apply only_calls_quiet, quiet_ret.
Qed.

(** X1. Every call [execute_tool] makes carries the bearer-token and
    content-type headers and goes to a URL under the configured base URL. *)
Theorem every_call_is_authenticated (name : string) (input : dict) (log : http_log) :
  exists calls,
    snd (exec name input log) = (log ++ calls)%list /\
    Forall (fun call =>
              request_headers (fst call)
              = [("Authorization", "Bearer " ++ HA_TOKEN); ("Content-Type", "application/json")] /\
              String.prefix HA_URL (request_url (fst call)) = true) calls.
Proof.
  destruct (execute_tool_try_addressed name input log) as (calls & Hlog & Hall).
  exists calls. rewrite exec_log. split; [assumption|].
  eapply Forall_impl; [| exact Hall]. intros call (Hh & Hp & _). split; assumption.
Qed.

(** X2. The two query tools only ever read: every call of [get_home_state]
    and [get_history] is a GET; every call of any other tool is a POST. *)
Theorem query_tools_only_read (name : string) (input : dict) (log : http_log)
    (calls : http_log) :
  snd (exec name input log) = (log ++ calls)%list ->
  Forall (fun call =>
            is_get (fst call) = true <-> name = "get_home_state" \/ name = "get_history")
    calls.
Proof.
  intro Hlog.
  destruct (execute_tool_try_addressed name input log) as (calls' & Hlog' & Hall).
  rewrite exec_log, Hlog' in Hlog. apply app_inv_head in Hlog. subst calls'.
  eapply Forall_impl; [| exact Hall]. intros call (_ & _ & Hm). rewrite Hm.
  rewrite orb_true_iff, !String.eqb_eq. reflexivity.
Qed.


(** *** The action tools *)

Lemma checked_call_settles (req : request) (url : string) (success : dict) log :
  match bind (http ha req)
          (fun r => bind (raise_for_status url r) (fun _ => ret success)) log with
  | (inr result, log') => (result, log')
  | (inl e, log') => (error_result (str_exn e), log')
  end
  = (settle success url (ha log req), (log ++ [(req, ha log req)])%list).
Proof.
  rewrite checked_call_run. unfold settle.
  destruct (ha log req) as [r | m]; [destruct (is_success r)|]; reflexivity.
Qed.

(** X3. [execute_scene] makes exactly one call when the input has a
    [scene_id], a POST to [scene/turn_on] whose body is that identifier
    under [entity_id], and reports success or the failure of that call;
    without a [scene_id] it makes no call. *)
Theorem execute_scene_posts_once (input : dict) (log : http_log) :
  exec "execute_scene" input log =
  match dict_get "scene_id" input with
  | Some scene_id =>
      let req := POST (scene_url HA_URL) (headers HA_TOKEN) [("entity_id", scene_id)] in
      (settle [("success", JBool true); ("scene", scene_id)] (scene_url HA_URL) (ha log req),
       (log ++ [(req, ha log req)])%list)
  | None => (error_result "'scene_id'", log)
  end.
Proof.
  unfold execute_tool.
  change (exec_try "execute_scene" input log)
    with (execute_scene HA_URL HA_TOKEN ha input log).
  unfold execute_scene, subscript.
  destruct (dict_get "scene_id" input) as [scene_id |]; [|reflexivity].
  unfold bind at 1, ret at 1. cbv zeta. apply checked_call_settles.
Qed.

(** X4. [control_device] on a string identifier, with an action and no
    attributes, makes exactly one call: a POST to the service named by the
    action in the domain read off the identifier, with the identifier as
    body.  The action is used as given, whatever it is. *)
Theorem control_device_posts_to_domain
    (input : dict) (log : http_log) (id : string) (action : json) :
  dict_get "entity_id" input = Some (JStr id) ->
  dict_get "action" input = Some action ->
  get_truthy "attributes" input = None ->
  let url := service_url HA_URL (before_dot id) (py_str action) in
  let req := POST url (headers HA_TOKEN) [("entity_id", JStr id)] in
  exec "control_device" input log =
  (settle [("success", JBool true); ("action", action); ("entity", JStr id)] url (ha log req),
   (log ++ [(req, ha log req)])%list).
Proof.
  intros He Ha Hn url req.
  unfold execute_tool.
  change (exec_try "control_device" input log)
    with (control_device HA_URL HA_TOKEN ha input log).
  unfold control_device, subscript.
  rewrite He, Ha, Hn. unfold bind at 1, ret at 1. unfold bind at 1, ret at 1.
  unfold bind at 1, ret at 1. unfold bind at 1, ret at 1.
  apply checked_call_settles.
Qed.

Lemma before_dot_app (d rest : string) :
  has_dot d = false -> before_dot (d ++ "." ++ rest) = d.
Proof.
  induction d as [| c d IH]; simpl; [reflexivity|].
  destruct (c =? ".")%char; simpl; [discriminate|]. intro H. f_equal. apply IH, H.
Qed.

Lemma before_dot_whole (s : string) : has_dot s = false -> before_dot s = s.
Proof.
  induction s as [| c s IH]; simpl; [reflexivity|].
  destruct (c =? ".")%char; simpl; [discriminate|]. intro H. f_equal. apply IH, H.
Qed.

Lemma before_dot_split (s : string) :
  has_dot s = true -> exists rest, s = before_dot s ++ "." ++ rest.
Proof.
  induction s as [| c s IH]; simpl; [discriminate|].
  destruct (c =? ".")%char eqn:E; simpl.
  - intros _. apply Ascii.eqb_eq in E. subst c. exists s. reflexivity.
  - intro H. destruct (IH H) as [rest Hrest]. exists rest. simpl. f_equal. exact Hrest.
Qed.

Lemma before_dot_no_dot (s : string) : has_dot (before_dot s) = false.
Proof.
  induction s as [| c s IH]; simpl; [reflexivity|].
  destruct (c =? ".")%char eqn:E; simpl; [reflexivity|]. rewrite E. assumption.
Qed.

(** X5. The domain [control_device] reads off an identifier is what stands
    before its first dot: it has no dot, an identifier [d.rest] with [d] free
    of dots gives [d], and an identifier without any dot is its own domain. *)
Theorem domain_is_text_before_first_dot (s : string) :
  has_dot (before_dot s) = false /\
  (has_dot s = true -> exists rest, s = before_dot s ++ "." ++ rest) /\
  (has_dot s = false -> before_dot s = s) /\
  (forall d rest, has_dot d = false -> s = d ++ "." ++ rest -> before_dot s = d).
Proof.
  split; [apply before_dot_no_dot|]. split; [apply before_dot_split|].
  split; [apply before_dot_whole|]. intros d rest Hd ->. apply before_dot_app, Hd.
Qed.

(** *** Merging attributes into the payload *)

Lemma dict_get_set_same k v d : dict_get k (dict_set k v d) = Some v.
Proof.
  induction d as [| [k' v'] d IH]; simpl.
  - rewrite String.eqb_refl. reflexivity.
  - destruct (k' =? k) eqn:E; simpl; rewrite ?String.eqb_refl, ?E; auto.
Qed.

Lemma dict_get_set_other k k' v d :
  k <> k' -> dict_get k' (dict_set k v d) = dict_get k' d.
Proof.
  intro Hne. induction d as [| [k0 v0] d IH]; simpl.
  - apply String.eqb_neq in Hne. rewrite Hne. reflexivity.
  - destruct (k0 =? k) eqn:E; simpl.
    + apply String.eqb_eq in E. subst k0. apply String.eqb_neq in Hne. rewrite Hne.
      reflexivity.
    + destruct (k0 =? k'); auto.
Qed.

Lemma dict_get_absent k (d : dict) : ~ In k (map fst d) -> dict_get k d = None.
Proof.
  induction d as [| [k' v'] d IH]; simpl; [reflexivity|].
  intro H. destruct (String.eqb_spec k' k); [tauto | apply IH; tauto].
Qed.

(** Looking a key up after [d.update(extra)]: the entry of [extra] when it
    has one, the old entry otherwise. *)
Lemma dict_get_update (extra : dict) : forall d k,
  NoDup (map fst extra) ->
  dict_get k (dict_update d extra)
  = match dict_get k extra with Some v => Some v | None => dict_get k d end.
Proof.
  unfold dict_update.
  induction extra as [| [k0 v0] extra IH]; intros d k Hnd; simpl; [reflexivity|].
  inversion Hnd as [| ? ? Hnotin Hnd']; subst.
  rewrite (IH _ _ Hnd').
  destruct (String.eqb_spec k0 k) as [-> | Hne].
  - rewrite (dict_get_absent _ _ Hnotin). apply dict_get_set_same.
  - destruct (dict_get k extra); [reflexivity|]. apply dict_get_set_other, Hne.
Qed.

(** X6. When [control_device] is given a non-empty object of attributes
    (with distinct keys), it makes one call whose body holds every attribute
    with its value, holds nothing but the attributes and [entity_id], and
    targets the identifier of the input unless the attributes themselves
    carry an [entity_id], which then replaces it. *)
Theorem control_device_merges_attributes
    (input : dict) (log : http_log) (id : string) (action : json) (attrs : dict) :
  dict_get "entity_id" input = Some (JStr id) ->
  dict_get "action" input = Some action ->
  dict_get "attributes" input = Some (JObj attrs) ->
  attrs <> [] ->
  NoDup (map fst attrs) ->
  exists payload,
    let req := POST (service_url HA_URL (before_dot id) (py_str action))
                 (headers HA_TOKEN) payload in
    snd (exec "control_device" input log) = (log ++ [(req, ha log req)])%list /\
    (forall k v, dict_get k attrs = Some v -> dict_get k payload = Some v) /\
    (dict_get "entity_id" attrs = None -> dict_get "entity_id" payload = Some (JStr id)) /\
    (forall k, k <> "entity_id" -> dict_get k attrs = None -> dict_get k payload = None).
Proof.
  intros He Ha Hattrs Hne Hnd.
  exists (dict_update [("entity_id", JStr id)] attrs). cbv zeta. split.
  - rewrite exec_log.
    change (exec_try "control_device" input log)
      with (control_device HA_URL HA_TOKEN ha input log).
    unfold control_device, subscript.
    assert (Ht : get_truthy "attributes" input = Some (JObj attrs)).
    { unfold get_truthy. rewrite Hattrs. destruct attrs; [contradiction | reflexivity]. }
    rewrite He, Ha, Ht. unfold bind at 1, ret at 1. unfold bind at 1, ret at 1.
    unfold bind at 1, ret at 1. simpl py_update. unfold lift. unfold bind at 1, ret at 1.
    rewrite checked_call_run.
    destruct (ha log _) as [r | m]; [destruct (is_success r)|]; reflexivity.
  - split; [| split].
    + intros k v Hk. rewrite (dict_get_update _ _ _ Hnd), Hk. reflexivity.
    + intro Hk. rewrite (dict_get_update _ _ _ Hnd), Hk. reflexivity.
    + intros k Hk Hno. rewrite (dict_get_update _ _ _ Hnd), Hno.
      unfold dict_get.
      destruct (String.eqb_spec "entity_id" k); [congruence | reflexivity].
Qed.

(** X7. [call_service] with a domain and a service makes exactly one call,
    a POST to that service; without a (truthy) [entity_id] and without
    (truthy) [data] its body is the empty object, and with a truthy
    [entity_id] alone the body is just that identifier. *)
Theorem call_service_payload (input : dict) (log : http_log) (domain service : json) :
  dict_get "domain" input = Some domain ->
  dict_get "service" input = Some service ->
  get_truthy "data" input = None ->
  let url := service_url HA_URL (py_str domain) (py_str service) in
  let payload := match get_truthy "entity_id" input with
                 | Some entity_id => [("entity_id", entity_id)]
                 | None => []
                 end in
  let req := POST url (headers HA_TOKEN) payload in
  exec "call_service" input log =
  (settle [("success", JBool true)] url (ha log req), (log ++ [(req, ha log req)])%list).
Proof.
  intros Hd Hs Hn url payload req.
  unfold execute_tool.
  change (exec_try "call_service" input log)
    with (call_service HA_URL HA_TOKEN ha input log).
  unfold call_service, subscript.
  rewrite Hd, Hs, Hn. unfold bind at 1, ret at 1. unfold bind at 1, ret at 1.
  unfold bind at 1, ret at 1.
  replace (match get_truthy "entity_id" input with
           | Some entity_id => dict_set "entity_id" entity_id []
           | None => []
           end) with payload
    by (unfold payload; destruct (get_truthy "entity_id" input); reflexivity).
  apply checked_call_settles.
Qed.

(** *** control_climate *)

(** X8. [control_climate] with an identifier but neither a mode nor a
    temperature makes no call at all and still reports success. *)
Theorem control_climate_without_settings (input : dict) (log : http_log) (entity_id : json) :
  dict_get "entity_id" input = Some entity_id ->
  dict_get "hvac_mode" input = None ->
  dict_get "temperature" input = None ->
  exec "control_climate" input log
  = ([("success", JBool true); ("entity", entity_id)], log).
Proof.
  intros He Hm Ht.
  rewrite exec_control_climate, (control_climate_run _ _ _ _ _ _ He), Hm.
  unfold temperature_phase. rewrite Ht. reflexivity.
Qed.

(** X9. [control_climate] looks at [entity_id], [temperature] and
    [hvac_mode] only: two inputs that agree on these three behave the same,
    so a [fan_mode] (which the catalog offers) is never sent anywhere. *)
Theorem control_climate_reads_three_fields (input input' : dict) (log : http_log) :
  agree_on ["entity_id"; "temperature"; "hvac_mode"] input input' ->
  exec "control_climate" input log = exec "control_climate" input' log.
Proof.
  intro Hagree.
  assert (He : dict_get "entity_id" input = dict_get "entity_id" input')
    by (apply Hagree; simpl; tauto).
  assert (Ht : dict_get "temperature" input = dict_get "temperature" input')
    by (apply Hagree; simpl; tauto).
  assert (Hm : dict_get "hvac_mode" input = dict_get "hvac_mode" input')
    by (apply Hagree; simpl; tauto).
  rewrite !exec_control_climate. unfold control_climate, subscript, dict_has.
  rewrite He, Ht, Hm. reflexivity.
Qed.


(** *** get_home_state *)

Lemma exec_get_home_state input log :
  exec "get_home_state" input log =
  match get_home_state HA_URL HA_TOKEN ha input log with
  | (inr result, log') => (result, log')
  | (inl e, log') => (error_result (str_exn e), log')
  end.
Proof. reflexivity. Qed.

(** X10. When [get_home_state] is given identifiers, the domain filter
    plays no part: two inputs with the same non-empty [entity_ids] behave
    the same, whatever else they hold. *)
Theorem identifiers_override_domain (input input' : dict) (log : http_log) (ids : json) :
  get_truthy "entity_ids" input = Some ids ->
  get_truthy "entity_ids" input' = Some ids ->
  exec "get_home_state" input log = exec "get_home_state" input' log.
Proof.
  intros H H'. rewrite !exec_get_home_state. unfold get_home_state.
  rewrite H, H'. reflexivity.
Qed.

(** X11. Without identifiers and without a domain filter, [get_home_state]
    makes the one snapshot query and hands the decoded body back untouched,
    whatever JSON value it is. *)
Theorem snapshot_is_passed_through
    (input : dict) (log : http_log) (r : response) (v : json) :
  get_truthy "entity_ids" input = None ->
  get_truthy "domain" input = None ->
  ha log (snapshot_call HA_URL HA_TOKEN) = Answered r ->
  is_success r = true ->
  body r = inr v ->
  exec "get_home_state" input log
  = ([("states", v)], (log ++ [(snapshot_call HA_URL HA_TOKEN, Answered r)])%list).
Proof.
  intros Hids Hdom Ha Hs Hb. rewrite exec_get_home_state. unfold get_home_state.
  rewrite Hids. fold (snapshot_call HA_URL HA_TOKEN). rewrite checked_call_run, Ha, Hs.
  unfold response_json. rewrite Hb, Hdom. reflexivity.
Qed.

Lemma keep_domain_stumbles pre (l : list json) :
  Forall readable_entity l -> Exists lacks_entity_id l ->
  keep_domain pre l = inl (KeyError "entity_id").
Proof.
  induction l as [| s l IH]; intros Hall Hex; [inversion Hex|].
  inversion Hall as [| ? ? Hs Hall']; subst. simpl.
  destruct s as [| | | | | fields]; try contradiction.
  unfold entity_has_prefix. simpl in Hs.
  destruct (dict_get "entity_id" fields) as [[| | | id | |] |] eqn:E; try contradiction;
    [| reflexivity].
  inversion Hex as [? ? Hlack | ? ? Hex']; subst.
  - simpl in Hlack. congruence.
  - rewrite (IH Hall' Hex'). reflexivity.
Qed.

(** X12. With a domain filter, one state object without an [entity_id]
    spoils the whole query: when the snapshot is a list of objects whose
    identifiers are strings where present, and one of them has none, the
    result is the error ['entity_id'] and no state is returned. *)
Theorem one_nameless_entity_fails_the_filter
    (input : dict) (log : http_log) (d : string) (r : response) (entities : list json) :
  get_truthy "entity_ids" input = None ->
  dict_get "domain" input = Some (JStr d) -> d <> EmptyString ->
  ha log (snapshot_call HA_URL HA_TOKEN) = Answered r ->
  is_success r = true ->
  body r = inr (JArr entities) ->
  Forall readable_entity entities ->
  Exists lacks_entity_id entities ->
  exec "get_home_state" input log
  = (error_result "'entity_id'",
     (log ++ [(snapshot_call HA_URL HA_TOKEN, Answered r)])%list).
Proof.
  intros Hids Hdom Hd Ha Hs Hb Hall Hex.
  rewrite exec_get_home_state. unfold get_home_state.
  rewrite Hids. fold (snapshot_call HA_URL HA_TOKEN). rewrite checked_call_run, Ha, Hs.
  unfold response_json. rewrite Hb. unfold bind at 1, ret at 1.
  assert (Ht : get_truthy "domain" input = Some (JStr d)).
  { unfold get_truthy. rewrite Hdom. simpl.
    destruct (String.eqb_spec d EmptyString); [contradiction | reflexivity]. }
  rewrite Ht. simpl py_iter. simpl py_str. unfold lift at 1, bind at 1, ret at 1.
  rewrite (keep_domain_stumbles _ _ Hall Hex). reflexivity.
Qed.

Lemma for_each_cons {A B} (f : A -> M B) (x : A) (l : list A) :
  for_each f (x :: l) = bind (f x) (fun y => bind (for_each f l) (fun ys => ret (y :: ys))).
Proof. reflexivity. Qed.

Lemma bind_ret_log {A B} (c : M A) (f : A -> B) log :
  snd (bind c (fun a => ret (f a)) log) = snd (c log).
Proof. unfold bind. destruct (c log) as [[e | a] log']; reflexivity. Qed.

(** The per-entity loop: either every query went through, or the loop
    ended at the first query that did not. *)
Lemma state_queries_outcome ids : forall log out log',
  for_each (fun entity_id =>
              bind (http ha (state_call HA_URL HA_TOKEN entity_id))
                (fun r => bind (raise_for_status (state_url HA_URL entity_id) r)
                            (fun _ => response_json r))) ids log
  = (out, log') ->
  exists calls,
    log' = (log ++ calls)%list /\
    match out with
    | inr _ =>
        map fst calls = map (state_call HA_URL HA_TOKEN) ids /\
        Forall (fun call => went_through (snd call) = true) calls
    | inl _ =>
        exists earlier last,
          calls = (earlier ++ [last])%list /\
          length earlier < length ids /\
          map fst calls
          = map (state_call HA_URL HA_TOKEN) (firstn (S (length earlier)) ids) /\
          Forall (fun call => went_through (snd call) = true) earlier /\
          went_through (snd last) = false
    end.
Proof.
  induction ids as [| id ids IH]; intros log out log' Hrun.
  - simpl in Hrun. injection Hrun as <- <-. exists []. rewrite app_nil_r.
    split; [reflexivity|]. split; [reflexivity | constructor].
  - rewrite for_each_cons in Hrun. unfold bind at 1 in Hrun.
    rewrite checked_call_run in Hrun.
    set (call := state_call HA_URL HA_TOKEN id) in *.
    assert (Hstop : forall o,
              went_through o = false ->
              exists earlier last,
                [(call, o)] = (earlier ++ [last])%list /\
                length earlier < length (id :: ids) /\
                map fst [(call, o)]
                = map (state_call HA_URL HA_TOKEN) (firstn (S (length earlier)) (id :: ids)) /\
                Forall (fun c => went_through (snd c) = true) earlier /\
                went_through (snd last) = false).
    { intros o Ho. exists [], (call, o). simpl.
      split; [reflexivity|]. split; [lia|]. split; [reflexivity|].
      split; [constructor | exact Ho]. }
    destruct (ha log call) as [r | m] eqn:Ea.
    + destruct (is_success r) eqn:Es.
      * unfold response_json at 1 in Hrun. destruct (body r) as [msg | v] eqn:Eb.
        -- injection Hrun as <- <-. exists [(call, Answered r)]. split; [reflexivity|].
           apply Hstop. simpl. rewrite Es, Eb. reflexivity.
        -- unfold ret at 1 in Hrun. unfold bind at 1 in Hrun.
           destruct (for_each _ ids _) as [[e | vs] log2] eqn:Erest.
           ++ injection Hrun as <- <-.
              destruct (IH _ _ _ Erest)
                as (calls & -> & earlier & last & Hc & Hlen & Hq & Hall & Hlast).
              exists ((call, Answered r) :: calls). rewrite <- app_assoc.
              split; [reflexivity|].
              exists ((call, Answered r) :: earlier), last.
              split; [rewrite Hc; reflexivity|].
              split; [simpl; lia|].
              split; [simpl; simpl in Hq; rewrite Hq; reflexivity|].
              split; [| assumption].
              constructor; [simpl; rewrite Es, Eb; reflexivity | assumption].
           ++ injection Hrun as <- <-.
              destruct (IH _ _ _ Erest) as (calls & -> & Hq & Hall).
              exists ((call, Answered r) :: calls). rewrite <- app_assoc.
              split; [reflexivity|].
              split; [simpl; rewrite Hq; reflexivity|].
              constructor; [simpl; rewrite Es, Eb; reflexivity | assumption].
      * injection Hrun as <- <-. exists [(call, Answered r)]. split; [reflexivity|].
        apply Hstop. simpl. rewrite Es. reflexivity.
    + injection Hrun as <- <-. exists [(call, Failed m)]. split; [reflexivity|].
      apply Hstop. reflexivity.
Qed.

(** X13. Given a list of identifiers, [get_home_state] queries them in
    order.  Either every query went through (a success status and a body
    that decodes): then there is one call per identifier and the states are
    returned.  Or the calls are the queries of the first identifiers up to
    one whose query did not go through: every query before it went through,
    none follows it, and the result is an error object. *)
Theorem state_queries_stop_at_first_failure
    (input : dict) (log : http_log) (ids : list json) :
  get_truthy "entity_ids" input = Some (JArr ids) ->
  exists calls,
    snd (exec "get_home_state" input log) = (log ++ calls)%list /\
    ((map fst calls = map (state_call HA_URL HA_TOKEN) ids /\
      Forall (fun call => went_through (snd call) = true) calls /\
      exists states, fst (exec "get_home_state" input log) = [("states", JArr states)]) \/
     (exists earlier last msg,
        calls = (earlier ++ [last])%list /\
        length earlier < length ids /\
        map fst calls
        = map (state_call HA_URL HA_TOKEN) (firstn (S (length earlier)) ids) /\
        Forall (fun call => went_through (snd call) = true) earlier /\
        went_through (snd last) = false /\
        fst (exec "get_home_state" input log) = error_result msg)).
Proof.
  intro Hids.
  assert (Hrun : exec "get_home_state" input log =
                 match for_each (fun entity_id =>
                         bind (http ha (state_call HA_URL HA_TOKEN entity_id))
                           (fun r => bind (raise_for_status (state_url HA_URL entity_id) r)
                                       (fun _ => response_json r))) ids log with
                 | (inr states, log') => ([("states", JArr states)], log')
                 | (inl e, log') => (error_result (str_exn e), log')
                 end).
  { unfold execute_tool.
    change (exec_try "get_home_state" input log)
      with (get_home_state HA_URL HA_TOKEN ha input log).
    unfold get_home_state. rewrite Hids. simpl py_iter.
    unfold lift at 1, bind at 1, ret at 1. unfold bind at 1. unfold state_call.
    destruct (for_each _ ids log) as [[e | states] log']; reflexivity. }
  rewrite Hrun. clear Hrun.
  destruct (for_each _ ids log) as [[e | states] log'] eqn:Erun;
    destruct (state_queries_outcome ids log _ _ Erun) as (calls & -> & Hcases);
    exists calls; (split; [reflexivity|]).
  - destruct Hcases as (earlier & last & Hc & Hlen & Hq & Hall & Hlast).
    right. exists earlier, last, (str_exn e).
    split; [assumption|]. split; [assumption|]. split; [assumption|].
    split; [assumption|]. split; [assumption | reflexivity].
  - destruct Hcases as [Hq Hall].
    left. split; [assumption|]. split; [assumption|]. exists states. reflexivity.
Qed.

(** *** get_history *)

(** The history loop, when it runs to the end. *)
Lemma history_queries_run stamp ids : forall log hs log',
  for_each (fun entity_id =>
              bind (http ha (GET (history_url HA_URL stamp) (headers HA_TOKEN)
                               [("filter_entity_id", entity_id)]))
                (fun r => bind (raise_for_status (history_url HA_URL stamp) r)
                   (fun _ => bind (response_json r)
                      (fun h => ret (JObj [("entity_id", entity_id); ("history", h)])))))
    ids log
  = (inr hs, log') ->
  exists rs bodies,
    length rs = length ids /\
    length bodies = length ids /\
    map body rs = map inr bodies /\
    log' = (log ++ map (fun p => (GET (history_url HA_URL stamp) (headers HA_TOKEN)
                                    [("filter_entity_id", fst p)], Answered (snd p)))
                     (combine ids rs))%list /\
    hs = map (fun p => JObj [("entity_id", fst p); ("history", snd p)]) (combine ids bodies).
Proof.
  induction ids as [| id ids IH]; intros log hs log' Hrun.
  - simpl in Hrun. injection Hrun as <- <-. exists [], []. rewrite app_nil_r.
    repeat split.
  - simpl in Hrun. unfold bind at 1 in Hrun. rewrite checked_call_run in Hrun.
    destruct (ha log _) as [r | m] eqn:Ea; [|discriminate].
    destruct (is_success r) eqn:Es; [|discriminate].
    unfold response_json in Hrun. destruct (body r) as [msg | v] eqn:Eb; [discriminate|].
    unfold ret at 1 in Hrun. unfold bind at 1 in Hrun. unfold ret at 1 in Hrun.
    unfold bind at 1 in Hrun.
    destruct (for_each _ ids _) as [[e | vs] log2] eqn:Erest; [discriminate|].
    injection Hrun as <- <-.
    destruct (IH _ _ _ Erest) as (rs & bodies & Hlr & Hlb & Hbody & Hlog & Hhs).
    exists (r :: rs), (v :: bodies). simpl.
    rewrite Hlr, Hlb, Hlog, <- app_assoc, Eb, Hbody, Hhs. repeat split.
Qed.

(** X14. [get_history], when it does not end in an error result, has read
    the clock once, for the [hours] of the input or 24 when there are none,
    and has made one query per identifier, in order, all to the same
    history URL, each filtered on its identifier; the result pairs each
    identifier with the body of its answer, in the same order. *)
Theorem get_history_pairs_entities
    (input : dict) (log : http_log) (ids : list json) :
  dict_get "entity_ids" input = Some (JArr ids) ->
  dict_get "error" (fst (exec "get_history" input log)) = None ->
  let hours := match dict_get "hours" input with Some h => h | None => JNum 24 end in
  exists stamp rs bodies,
    start_time_iso hours = inr stamp /\
    length rs = length ids /\
    length bodies = length ids /\
    map body rs = map inr bodies /\
    exec "get_history" input log
    = ([("histories",
         JArr (map (fun p => JObj [("entity_id", fst p); ("history", snd p)])
                 (combine ids bodies)))],
       (log ++ map (fun p => (GET (history_url HA_URL stamp) (headers HA_TOKEN)
                                [("filter_entity_id", fst p)], Answered (snd p)))
                 (combine ids rs))%list).
Proof.
  intros Hids Hok hours.
  assert (Hrun : get_history HA_URL HA_TOKEN ha input log =
                 match start_time_iso hours with
                 | inl e => (inl e, log)
                 | inr stamp =>
                     match for_each (fun entity_id =>
                             bind (http ha (GET (history_url HA_URL stamp) (headers HA_TOKEN)
                                              [("filter_entity_id", entity_id)]))
                               (fun r => bind (raise_for_status (history_url HA_URL stamp) r)
                                  (fun _ => bind (response_json r)
                                     (fun h => ret (JObj [("entity_id", entity_id);
                                                          ("history", h)])))))
                             ids log with
                     | (inl e, log') => (inl e, log')
                     | (inr hs, log') => (inr [("histories", JArr hs)], log')
                     end
                 end).
  { unfold get_history, subscript. rewrite Hids. fold hours.
    unfold bind at 1, ret at 1.
    destruct (start_time_iso hours) as [e | stamp]; [reflexivity|].
    unfold lift at 1, bind at 1, ret at 1. simpl py_iter.
    unfold lift at 1, bind at 1, ret at 1. unfold bind at 1.
    destruct (for_each _ ids log) as [[e | hs] log']; reflexivity. }
  revert Hok. unfold execute_tool.
  change (exec_try "get_history" input log)
    with (get_history HA_URL HA_TOKEN ha input log).
  rewrite Hrun. clear Hrun.
  destruct (start_time_iso hours) as [e | stamp] eqn:Estamp; [discriminate|].
  match goal with
  | |- context [for_each ?f ids log] =>
      destruct (for_each f ids log) as [[e | hs] log'] eqn:Erun; [discriminate|]
  end.
  intros _.
  destruct (history_queries_run stamp ids log hs log' Erun)
    as (rs & bodies & Hlr & Hlb & Hbody & Hlog & Hhs).
  exists stamp, rs, bodies. subst hs log'.
  split; [reflexivity|]. split; [assumption|]. split; [assumption|]. split; [assumption|].
  reflexivity.
Qed.

(** *** The shape of a result *)

Lemma returns_bind {A B} (Q : B -> Prop) (c : M A) (k : A -> M B) :
  (forall a, returns Q (k a)) -> returns Q (bind c k).
Proof.
  intros Hk log b. unfold bind. destruct (c log) as [[e | a] log'] eqn:Ec; simpl.
  - discriminate.
  - apply Hk.
Qed.

Lemma returns_ret {A} (Q : A -> Prop) (a : A) : Q a -> returns Q (ret a).
Proof. intros HQ log b [= <-]. exact HQ. Qed.

Ltac shape :=
  repeat (apply returns_bind; intro);
  try (apply returns_ret; unfold success_shape; eauto 12).

Lemma execute_tool_try_shape name input :
  In name TOOL_NAMES -> returns (success_shape name) (exec_try name input).
Proof.
  intro Hin. unfold execute_tool_try.
  destruct (name =? "get_home_state") eqn:E1.
  { apply String.eqb_eq in E1. subst name. unfold get_home_state.
    destruct (get_truthy "entity_ids" input); [shape|].
    shape. destruct (get_truthy "domain" input); shape. }
  destruct (name =? "control_device") eqn:E2.
  { apply String.eqb_eq in E2. subst name. unfold control_device. shape. }
  destruct (name =? "control_climate") eqn:E3.
  { apply String.eqb_eq in E3. subst name. unfold control_climate. shape. }
  destruct (name =? "execute_scene") eqn:E4.
  { apply String.eqb_eq in E4. subst name. unfold execute_scene. shape. }
  destruct (name =? "call_service") eqn:E5.
  { apply String.eqb_eq in E5. subst name. unfold call_service. shape. }
  destruct (name =? "get_history") eqn:E6.
  { apply String.eqb_eq in E6. subst name. unfold get_history. shape. }
  exfalso. simpl in Hin.
  repeat (destruct Hin as [<- | Hin]; [discriminate|]). exact Hin.
Qed.

Lemma exec_try_unknown name input log :
  ~ In name TOOL_NAMES ->
  exec_try name input log = (inr (error_result ("Tool desconhecido: " ++ name)), log).
Proof.
  intro Hout. unfold execute_tool_try.
  assert (Hne : forall known, In known TOOL_NAMES -> (name =? known) = false).
  { intros known Hin. apply String.eqb_neq. intros ->. exact (Hout Hin). }
  rewrite !Hne by (simpl; tauto). reflexivity.
Qed.

(** X15. A result of [execute_tool] is either the one-entry error object,
    or the success object of the tool that ran: the two never mix, so a
    result has an [error] entry exactly when it is an error object, and an
    error object has no [success] entry. *)
Theorem result_is_error_or_success (name : string) (input : dict) (log : http_log) :
  let result := fst (exec name input log) in
  ((exists msg, result = error_result msg) \/ success_shape name result) /\
  (success_shape name result -> dict_get "error" result = None) /\
  (forall msg, result = error_result msg -> dict_get "success" result = None).
Proof.
  cbv zeta. split; [| split].
  - unfold execute_tool.
    destruct (in_dec string_dec name TOOL_NAMES) as [Hin | Hout].
    + pose proof (execute_tool_try_shape name input Hin log) as Hshape.
      destruct (exec_try name input log) as [[e | result] log']; simpl in *.
      * left. eexists. reflexivity.
      * right. apply Hshape. reflexivity.
    + left. rewrite (exec_try_unknown name input log Hout). eexists. reflexivity.
  - intros [(_ & v & ->) | [(_ & a & e & ->) | [(_ & e & ->) | [(_ & sc & ->)
           | [(_ & ->) | (_ & hs & ->)]]]]]; reflexivity.
  - intros msg ->. reflexivity.
Qed.

End ExecutorMore.

(** * Further properties of the orchestrator and the endpoint *)

Section OrchestratorMore.

Context {rt : Runtime}.
Variables HA_URL HA_TOKEN BRIDGE_API_KEY : string.
Variable ha : backend.
Variable llm : llm_oracle.

Local Abbreviation exec := (execute_tool HA_URL HA_TOKEN ha).
Local Abbreviation run_blocks := (run_tools HA_URL HA_TOKEN ha).
Local Abbreviation loop := (tool_loop HA_URL HA_TOKEN ha llm).
Local Abbreviation process := (process_command_with_claude HA_URL HA_TOKEN ha llm).
Local Abbreviation endpoint := (process_alexa_command HA_URL HA_TOKEN BRIDGE_API_KEY ha llm).

(** *** Tool requests and their results *)

(** X16. Every tool request of a response gets exactly one result, in the
    order of the requests, tagged [tool_result] and bearing the identifier
    of its request; fragments that are not tool requests get none. *)
Theorem each_request_gets_its_result (blocks : list content_block) (log : http_log) :
  let results := fst (run_blocks blocks log) in
  map tool_use_id results = map (fun u => fst (fst u)) (tool_uses blocks) /\
  Forall (fun res => result_type res = "tool_result") results.
Proof.
  cbv zeta. revert log. induction blocks as [| b blocks IH]; intro log; simpl.
  - split; constructor.
  - destruct b as [text | id name input | type]; try apply IH.
    destruct (exec name input log) as [result log1].
    specialize (IH log1). destruct (run_blocks blocks log1) as [results log2].
    simpl in *. destruct IH as [Hids Htypes]. split.
    + rewrite Hids. reflexivity.
    + constructor; [reflexivity | assumption].
Qed.

(** X17. Running the tools of a list of fragments is running those of its
    first part and then, on the log this leaves, those of the rest: the
    results are concatenated and the calls accumulate in order. *)
Theorem run_tools_is_sequential (blocks1 blocks2 : list content_block) (log : http_log) :
  run_blocks (blocks1 ++ blocks2)%list log =
  (fst (run_blocks blocks1 log) ++ fst (run_blocks blocks2 (snd (run_blocks blocks1 log))),
   snd (run_blocks blocks2 (snd (run_blocks blocks1 log))))%list.
Proof.
  revert log. induction blocks1 as [| b blocks1 IH]; intro log; simpl.
  - destruct (run_blocks blocks2 log); reflexivity.
  - destruct b as [text | id name input | type]; try apply IH.
    destruct (exec name input log) as [result log1].
    rewrite (IH log1). destruct (run_blocks blocks1 log1) as [results log2]. reflexivity.
Qed.

(** *** The log of LLM calls *)

Lemma create_message_again msgs w :
  create_message llm msgs w =
  let req := llm_request_of msgs in
  (match llm (llm_calls w) req with
   | Replied r => inr r
   | LLMFailed msg => inl (APIError msg)
   end,
   mkWorld (llm_calls w ++ [(req, llm (llm_calls w) req)])%list (http_calls w)).
Proof.
  unfold create_message, llm_request_of. cbv zeta.
  destruct (llm (llm_calls w) _); reflexivity.
Qed.

Lemma ends_with_answer_cons req r calls answer :
  calls <> [] -> stop_reason r = "tool_use" -> ends_with_answer calls answer ->
  ends_with_answer ((req, Replied r) :: calls) answer.
Proof.
  intros Hne Hstop Hrest. destruct calls as [| c calls]; [contradiction|].
  simpl. split; assumption.
Qed.

(** The calls the loop adds after [response], when it comes back. *)
Lemma tool_loop_log fuel user_message : forall response w outcome w' req,
  loop fuel user_message response w = (Some outcome, w') ->
  exists calls,
    llm_calls w' = (llm_calls w ++ calls)%list /\
    ends_with_answer ((req, Replied response) :: calls) (answer_of outcome).
Proof.
  induction fuel as [| fuel IH]; intros response w outcome w' req Hrun; simpl in Hrun.
  - destruct (stop_reason response =? "tool_use") eqn:Es; [discriminate|].
    injection Hrun as <- <-. exists []. rewrite app_nil_r. split; [reflexivity|].
    simpl. apply String.eqb_neq in Es. split; [assumption | reflexivity].
  - destruct (stop_reason response =? "tool_use") eqn:Es.
    + apply String.eqb_eq in Es.
      destruct (run_blocks (content response) (http_calls w)) as [tool_results log'].
      rewrite create_message_again in Hrun. cbv zeta in Hrun. simpl llm_calls in Hrun.
      set (req1 := llm_request_of (loop_messages user_message response tool_results)) in *.
      destruct (llm (llm_calls w) req1) as [r | msg] eqn:Eo.
      * destruct (IH _ _ _ _ req1 Hrun) as (calls & Hlog & Hshape).
        exists ((req1, Replied r) :: calls). simpl llm_calls in Hlog.
        rewrite Hlog, <- app_assoc. split; [reflexivity|].
        apply ends_with_answer_cons; [discriminate | assumption | assumption].
      * injection Hrun as <- <-. exists [(req1, LLMFailed msg)].
        split; [reflexivity|]. simpl. split; [assumption | reflexivity].
    + injection Hrun as <- <-. exists []. rewrite app_nil_r. split; [reflexivity|].
      simpl. apply String.eqb_neq in Es. split; [assumption | reflexivity].
Qed.

Lemma process_log fuel command context w w' answer :
  process fuel command context w = (Some answer, w') ->
  exists calls,
    llm_calls w' = (llm_calls w ++ calls)%list /\ ends_with_answer calls answer.
Proof.
  unfold process_command_with_claude. rewrite create_message_again. cbv zeta.
  set (user_message := build_user_message command context).
  set (req := llm_request_of [mkTurn "user" (Plain user_message)]).
  destruct (llm (llm_calls w) req) as [r | msg] eqn:Eo.
  - destruct (loop fuel user_message r _) as [[outcome |] w2] eqn:Eloop; [|discriminate].
    intro Hrun.
    destruct (tool_loop_log _ _ _ _ _ _ req Eloop) as (calls & Hlog & Hshape).
    exists ((req, Replied r) :: calls). simpl llm_calls in Hlog.
    assert (answer = answer_of outcome /\ w' = w2) as [-> ->].
    { destruct outcome; injection Hrun as <- <-; split; reflexivity. }
    rewrite Hlog, <- app_assoc. split; [reflexivity | assumption].
  - intros [= <- <-]. exists [(req, LLMFailed msg)]. split; reflexivity.
Qed.

(** X18. When a request comes back with an answer, its LLM calls form a
    chain: every reply but the last asked for tools, and the last call
    decides the answer, which is the stripped text of the last reply when
    that reply did not ask for tools, and the apology when the last call
    failed. *)
Theorem answer_comes_from_last_call
    (fuel : nat) (command : string) (context : dict) (w w' : world) (answer : string) :
  process fuel command context w = (Some answer, w') ->
  exists calls,
    llm_calls w' = (llm_calls w ++ calls)%list /\ ends_with_answer calls answer.
Proof. apply process_log. Qed.

(** The loop against a model that always asks for tools. *)
Lemma tool_loop_never_ends fuel user_message : forall response w,
  (forall log req, exists r, llm log req = Replied r /\ stop_reason r = "tool_use") ->
  stop_reason response = "tool_use" ->
  fst (loop fuel user_message response w) = None /\
  length (llm_calls (snd (loop fuel user_message response w)))
  = length (llm_calls w) + fuel.
Proof.
  induction fuel as [| fuel IH]; intros response w Hmodel Hstop; simpl; rewrite Hstop; simpl.
  - split; [reflexivity | lia].
  - destruct (run_blocks (content response) (http_calls w)) as [tool_results log'].
    rewrite create_message_again. cbv zeta. simpl llm_calls.
    set (req := llm_request_of (loop_messages user_message response tool_results)).
    destruct (Hmodel (llm_calls w) req) as (r & -> & Hr).
    destruct (IH r (mkWorld (llm_calls w ++ [(req, Replied r)])%list log') Hmodel Hr)
      as [Hnone Hlen].
    split; [assumption|]. rewrite Hlen. simpl llm_calls. rewrite length_app. simpl. lia.
Qed.

(** X19. Nothing bounds the loop: against a model whose every reply asks
    for tools, no number of iterations yields an answer, and [fuel]
    iterations make [fuel + 1] LLM calls. *)
Theorem loop_has_no_iteration_cap
    (fuel : nat) (command : string) (context : dict) (w : world) :
  (forall log req, exists r, llm log req = Replied r /\ stop_reason r = "tool_use") ->
  fst (process fuel command context w) = None /\
  length (llm_calls (snd (process fuel command context w)))
  = length (llm_calls w) + fuel + 1.
Proof.
  intro Hmodel. unfold process_command_with_claude. rewrite create_message_again. cbv zeta.
  set (user_message := build_user_message command context).
  set (req := llm_request_of [mkTurn "user" (Plain user_message)]).
  destruct (Hmodel (llm_calls w) req) as (r & -> & Hr).
  destruct (tool_loop_never_ends fuel user_message r
              (mkWorld (llm_calls w ++ [(req, Replied r)])%list (http_calls w)) Hmodel Hr)
    as [Hnone Hlen].
  destruct (loop fuel user_message r _) as [[outcome |] w2]; simpl in *; [discriminate|].
  split; [reflexivity|]. rewrite Hlen, length_app. simpl. lia.
Qed.

Lemma tool_loop_well_formed fuel user_message : forall response w,
  exists calls,
    llm_calls (snd (loop fuel user_message response w)) = (llm_calls w ++ calls)%list /\
    Forall (fun c => well_formed_call user_message (fst c)) calls.
Proof.
  induction fuel as [| fuel IH]; intros response w; simpl.
  - exists []. rewrite app_nil_r.
    destruct (stop_reason response =? "tool_use"); (split; [reflexivity | constructor]).
  - destruct (stop_reason response =? "tool_use").
    + destruct (run_blocks (content response) (http_calls w)) as [tool_results log'].
      rewrite create_message_again. cbv zeta. simpl llm_calls.
      set (req := llm_request_of (loop_messages user_message response tool_results)).
      assert (Hreq : well_formed_call user_message req).
      { repeat split. right. reflexivity. }
      destruct (llm (llm_calls w) req) as [r | msg].
      * match goal with
        | |- context [loop fuel user_message r ?w1] =>
            destruct (IH r w1) as (calls & Hlog & Hall)
        end.
        exists ((req, Replied r) :: calls). rewrite Hlog. simpl llm_calls.
        rewrite <- app_assoc. split; [reflexivity | constructor; assumption].
      * exists [(req, LLMFailed msg)]. split; [reflexivity|].
        constructor; [assumption | constructor].
    + exists []. rewrite app_nil_r. split; [reflexivity | constructor].
Qed.

(** X20. Every LLM call of a request names the same model, the same token
    limit and the six tools, opens with the user turn that carries the
    command, and carries either that turn alone or the three turns
    user, assistant, user. *)
Theorem every_llm_call_is_well_formed
    (fuel : nat) (command : string) (context : dict) (w : world) :
  exists calls,
    llm_calls (snd (process fuel command context w)) = (llm_calls w ++ calls)%list /\
    Forall (fun c => well_formed_call (build_user_message command context) (fst c)) calls.
Proof.
  unfold process_command_with_claude. rewrite create_message_again. cbv zeta.
  set (user_message := build_user_message command context).
  set (req := llm_request_of [mkTurn "user" (Plain user_message)]).
  assert (Hreq : well_formed_call user_message req).
  { repeat split. left. reflexivity. }
  destruct (llm (llm_calls w) req) as [r | msg].
  - match goal with
    | |- context [loop fuel user_message r ?w1] =>
        destruct (tool_loop_well_formed fuel user_message r w1) as (calls & Hlog & Hall);
        destruct (loop fuel user_message r w1) as [[[e | final] |] w2]
    end; simpl in *;
      (exists ((req, Replied r) :: calls); rewrite Hlog, <- app_assoc;
       split; [reflexivity | constructor; assumption]).
  - exists [(req, LLMFailed msg)]. split; [reflexivity|].
    constructor; [assumption | constructor].
Qed.


(** *** The spoken answer *)

Lemma rstrip_cons (c : ascii) (s : string) :
  rstrip (String c s)
  = if is_space_char (String c (rstrip s)) then EmptyString else String c (rstrip s).
Proof. reflexivity. Qed.

Lemma byte_is_eq (c : ascii) (n : nat) : byte_is c n = true -> c = ascii_of_nat n.
Proof.
  unfold byte_is. intro H. apply Nat.eqb_eq in H.
  rewrite <- H, ascii_nat_embedding. reflexivity.
Qed.

Lemma space2_lead (c1 c2 : ascii) :
  is_space2 c1 c2 = true -> c1 = ascii_of_nat 194 /\ is_space c2 = false.
Proof.
  unfold is_space2. intro H. apply andb_true_iff in H. destruct H as [H1 H2].
  split; [apply byte_is_eq, H1|].
  apply orb_true_iff in H2. destruct H2 as [H2 | H2];
    apply byte_is_eq in H2; subst c2; reflexivity.
Qed.

Lemma space3_lead (c1 c2 c3 : ascii) :
  is_space3 c1 c2 c3 = true ->
  is_space c1 = false /\ is_space2 c1 c2 = false /\
  is_space c3 = false /\ is_space2 c2 c3 = false.
Proof.
  unfold is_space3. intro H.
  assert (H1 : c1 = ascii_of_nat 225 \/ c1 = ascii_of_nat 226 \/ c1 = ascii_of_nat 227).
  { destruct (byte_is c1 225) eqn:E1; [left; apply byte_is_eq, E1|].
    destruct (byte_is c1 226) eqn:E2; [right; left; apply byte_is_eq, E2|].
    destruct (byte_is c1 227) eqn:E3; [right; right; apply byte_is_eq, E3|].
    simpl in H. discriminate. }
  assert (H2 : c2 = ascii_of_nat 154 \/ c2 = ascii_of_nat 128 \/ c2 = ascii_of_nat 129).
  { destruct (byte_is c2 154) eqn:E1; [left; apply byte_is_eq, E1|].
    destruct (byte_is c2 128) eqn:E2; [right; left; apply byte_is_eq, E2|].
    destruct (byte_is c2 129) eqn:E3; [right; right; apply byte_is_eq, E3|].
    destruct (byte_is c1 225), (byte_is c1 226), (byte_is c1 227); simpl in H;
      discriminate. }
  assert (H3 : (128 <=? nat_of_ascii c3)%nat = true).
  { destruct (128 <=? nat_of_ascii c3)%nat eqn:E; [reflexivity|]. exfalso.
    assert (Hno : forall n, (128 <= n)%nat -> byte_is c3 n = false).
    { intros n Hn. unfold byte_is. apply Nat.eqb_neq. apply Nat.leb_gt in E. lia. }
    rewrite !Hno in H by lia. rewrite ?andb_false_r in H. simpl in H.
    rewrite ?andb_false_r in H. simpl in H. discriminate. }
  split; [destruct H1 as [-> | [-> | ->]]; reflexivity|].
  split; [unfold is_space2; destruct H1 as [-> | [-> | ->]]; reflexivity|].
  split.
  - unfold is_space. apply Nat.leb_le in H3.
    replace (nat_of_ascii c3 <=? 13)%nat with false by (symmetry; apply Nat.leb_gt; lia).
    replace (nat_of_ascii c3 <=? 32)%nat with false by (symmetry; apply Nat.leb_gt; lia).
    rewrite !andb_false_r. reflexivity.
  - unfold is_space2. destruct H2 as [-> | [-> | ->]]; reflexivity.
Qed.

(** A white-space character in front is dropped by [lstrip]. *)
Lemma lstrip_drops_leading (w s : string) :
  is_space_char w = true -> lstrip (w ++ s) = lstrip s.
Proof.
  destruct w as [| c1 [| c2 [| c3 [| c4 w]]]]; simpl is_space_char; try discriminate.
  - intro H. simpl. rewrite H. reflexivity.
  - intro H. destruct (space2_lead _ _ H) as [-> _]. simpl append.
    unfold lstrip; fold lstrip. replace (is_space (ascii_of_nat 194)) with false by reflexivity.
    rewrite H. reflexivity.
  - intro H. destruct (space3_lead _ _ _ H) as (H1 & H2 & _). simpl append.
    unfold lstrip; fold lstrip. rewrite H1, H2, H. reflexivity.
Qed.

Lemma rstrip_space_char (w : string) : is_space_char w = true -> rstrip w = EmptyString.
Proof.
  destruct w as [| c1 [| c2 [| c3 [| c4 w]]]]; simpl is_space_char; try discriminate.
  - intro H. rewrite rstrip_cons. simpl rstrip. simpl is_space_char. rewrite H. reflexivity.
  - intro H. destruct (space2_lead _ _ H) as [_ H2].
    rewrite rstrip_cons, rstrip_cons. simpl rstrip.
    replace (is_space_char (String c2 EmptyString)) with false by (symmetry; exact H2).
    simpl is_space_char. rewrite H. reflexivity.
  - intro H. destruct (space3_lead _ _ _ H) as (_ & _ & H3 & H23).
    rewrite rstrip_cons, rstrip_cons, rstrip_cons. simpl rstrip.
    replace (is_space_char (String c3 EmptyString)) with false by (symmetry; exact H3).
    replace (is_space_char (String c2 (String c3 EmptyString))) with false
      by (symmetry; exact H23).
    simpl is_space_char. rewrite H. reflexivity.
Qed.

(** A white-space character at the end is dropped by [rstrip]. *)
Lemma rstrip_drops_trailing (w s : string) :
  is_space_char w = true -> rstrip (s ++ w) = rstrip s.
Proof.
  intro H. induction s as [| c s IH].
  - simpl append. apply rstrip_space_char, H.
  - simpl append. rewrite !rstrip_cons, IH. reflexivity.
Qed.

(** A reply wrapped in no-break spaces (U+00A0) and blanks comes out bare. *)
Lemma strip_takes_no_break_spaces :
  let nbsp := String (ascii_of_nat 194) (String (ascii_of_nat 160) EmptyString) in
  strip (" " ++ nbsp ++ "Oi" ++ nbsp ++ " ") = "Oi".
Proof. reflexivity. Qed.

Lemma lstrip_first_bounded (n : nat) : forall s,
  String.length s <= n -> first_is_space (lstrip s) = false.
Proof.
  induction n as [| n IH]; intros s Hlen.
  - destruct s; [reflexivity | simpl in Hlen; lia].
  - destruct s as [| c1 s1]; [reflexivity|]. simpl in Hlen. simpl lstrip.
    destruct (is_space c1) eqn:E1; [apply IH; lia|].
    destruct s1 as [| c2 s2]; [simpl; exact E1|]. simpl in Hlen.
    destruct (is_space2 c1 c2); [apply IH; lia|].
    destruct s2 as [| c3 s3]; [simpl; exact E1|]. simpl in Hlen.
    destruct (is_space3 c1 c2 c3); [apply IH; lia | simpl; exact E1].
Qed.

Lemma lstrip_first (s : string) : first_is_space (lstrip s) = false.
Proof. apply (lstrip_first_bounded (String.length s)). constructor. Qed.

Lemma rstrip_first (s : string) :
  first_is_space s = false -> first_is_space (rstrip s) = false.
Proof.
  destruct s as [| c s]; [reflexivity|]. intro Hc. rewrite rstrip_cons.
  destruct (is_space_char (String c (rstrip s))); [reflexivity | exact Hc].
Qed.

Lemma rstrip_last (s : string) : last_is_space (rstrip s) = false.
Proof.
  induction s as [| c s IH]; [reflexivity|]. rewrite rstrip_cons.
  destruct (is_space_char (String c (rstrip s))) eqn:E; [reflexivity|].
  destruct (rstrip s) as [| c' r]; [exact E | exact IH].
Qed.

Lemma strip_is_trimmed (s : string) :
  first_is_space (strip s) = false /\ last_is_space (strip s) = false.
Proof.
  unfold strip. split; [apply rstrip_first, lstrip_first | apply rstrip_last].
Qed.

Lemma answered_chain_is_stripped calls answer :
  ends_with_answer calls answer ->
  Forall (fun c => exists r, snd c = Replied r) calls ->
  exists r, answer = strip (final_text (content r)).
Proof.
  induction calls as [| [req o] calls IH]; simpl; [contradiction|].
  intros Hshape Hall. inversion Hall as [| ? ? [r Hr] Hall']; subst. simpl in Hr. subst o.
  destruct calls as [| c calls].
  - destruct Hshape as [_ ->]. exists r. reflexivity.
  - destruct Hshape as [_ Hrest]. apply IH; assumption.
Qed.

(** X21. When no LLM call of a request failed, the answer that comes back
    neither begins nor ends with (ASCII) white space, whatever the model
    wrote around its text. *)
Theorem answer_has_no_surrounding_space
    (fuel : nat) (command : string) (context : dict) (w w' : world)
    (answer : string) (calls : llm_log) :
  process fuel command context w = (Some answer, w') ->
  llm_calls w' = (llm_calls w ++ calls)%list ->
  Forall (fun c => exists r, snd c = Replied r) calls ->
  first_is_space answer = false /\ last_is_space answer = false.
Proof.
  intros Hrun Hlog Hall.
  destruct (process_log _ _ _ _ _ _ Hrun) as (calls' & Hlog' & Hshape).
  rewrite Hlog' in Hlog. apply app_inv_head in Hlog. subst calls'.
  destruct (answered_chain_is_stripped _ _ Hshape Hall) as [r ->].
  apply strip_is_trimmed.
Qed.

(** *** The shared secret *)

Lemma key_matches_iff (x_api_key : option string) :
  key_matches BRIDGE_API_KEY x_api_key = true <-> x_api_key = Some BRIDGE_API_KEY.
Proof.
  destruct x_api_key as [k |]; simpl.
  - rewrite String.eqb_eq. split; [intros -> | intros [= ->]]; reflexivity.
  - split; discriminate.
Qed.

(** X22. A request whose key header is missing or differs from the
    configured key is answered 401 "Unauthorized" before anything else
    happens: no LLM call and no backend call is made.  No other request is
    ever answered with an HTTP error. *)
Theorem only_a_wrong_key_is_rejected
    (fuel : nat) (request : AlexaRequest) (x_api_key : option string) (w : world) :
  (x_api_key <> Some BRIDGE_API_KEY ->
   endpoint fuel request x_api_key w
   = (Some (inl (mkHTTPException 401 "Unauthorized")), w)) /\
  (forall e, fst (endpoint fuel request x_api_key w) = Some (inl e) ->
             x_api_key <> Some BRIDGE_API_KEY).
Proof.
  split.
  - intro Hkey. unfold process_alexa_command.
    destruct (key_matches BRIDGE_API_KEY x_api_key) eqn:E; [|reflexivity].
    apply key_matches_iff in E. contradiction.
  - intros e Hrun Hkey. apply key_matches_iff in Hkey.
    rewrite (endpoint_authenticated _ _ _ _ _ _ _ _ _ Hkey) in Hrun. cbv zeta in Hrun.
    simpl fst in Hrun. destruct (fst (process fuel (command request) _ w)); discriminate.
Qed.

End OrchestratorMore.

(** * The further properties at work on sample runs *)

Lemma query_tools_only_read_witness :
  Forall (fun call =>
            is_get (fst call) = true <->
            "get_home_state" = "get_home_state" \/ "get_home_state" = "get_history")
    [(snapshot_call demo_url demo_token, ok (JArr snapshot))].
Proof.
  apply (query_tools_only_read (rt := simple_runtime) demo_url demo_token
           (constant_backend (ok (JArr snapshot))) "get_home_state"
           [("domain", JStr "light")] []).
  reflexivity.
Defined.

Lemma control_device_posts_to_domain_witness :
  execute_tool (rt := simple_runtime) demo_url demo_token (constant_backend (ok (JArr [])))
    "control_device" [("entity_id", JStr "light.sala"); ("action", JStr "turn_off")] []
  = ([("success", JBool true); ("action", JStr "turn_off"); ("entity", JStr "light.sala")],
     [(POST "http://homeassistant.local:8123/api/services/light/turn_off"
         (headers demo_token) [("entity_id", JStr "light.sala")],
       ok (JArr []))]).
Proof.
  exact (control_device_posts_to_domain (rt := simple_runtime) demo_url demo_token
           (constant_backend (ok (JArr [])))
           [("entity_id", JStr "light.sala"); ("action", JStr "turn_off")] []
           "light.sala" (JStr "turn_off") eq_refl eq_refl eq_refl).
Defined.

Lemma domain_is_text_before_first_dot_witness :
  before_dot "light.sala.teto" = "light" /\ before_dot "sala" = "sala".
Proof.
  split.
  - apply (proj2 (proj2 (proj2 (domain_is_text_before_first_dot "light.sala.teto")))
             "light" "sala.teto"); reflexivity.
  - apply (proj1 (proj2 (proj2 (domain_is_text_before_first_dot "sala")))). reflexivity.
Defined.

Lemma control_device_merges_attributes_witness :
  exists payload,
    snd (execute_tool (rt := simple_runtime) demo_url demo_token
           (constant_backend (ok (JArr []))) "control_device"
           [("entity_id", JStr "light.sala"); ("action", JStr "turn_on");
            ("attributes", JObj [("brightness", JNum (inject_Z 128));
                                 ("entity_id", JStr "light.quarto")])] [])
    = [(POST "http://homeassistant.local:8123/api/services/light/turn_on"
          (headers demo_token) payload, ok (JArr []))] /\
    dict_get "brightness" payload = Some (JNum (inject_Z 128)) /\
    dict_get "entity_id" payload = Some (JStr "light.quarto").
Proof.
  destruct (control_device_merges_attributes (rt := simple_runtime) demo_url demo_token
              (constant_backend (ok (JArr [])))
              [("entity_id", JStr "light.sala"); ("action", JStr "turn_on");
               ("attributes", JObj [("brightness", JNum (inject_Z 128));
                                    ("entity_id", JStr "light.quarto")])] []
              "light.sala" (JStr "turn_on")
              [("brightness", JNum (inject_Z 128)); ("entity_id", JStr "light.quarto")])
    as (payload & Hlog & Hattrs & _ & _).
  - reflexivity.
  - reflexivity.
  - reflexivity.
  - discriminate.
  - repeat constructor; simpl; intuition discriminate.
  - exists payload. split; [exact Hlog|]. split; apply Hattrs; reflexivity.
Defined.

Lemma call_service_payload_witness :
  execute_tool (rt := simple_runtime) demo_url demo_token (constant_backend (ok (JArr [])))
    "call_service" [("domain", JStr "notify"); ("service", JStr "alexa_media")] []
  = ([("success", JBool true)],
     [(POST "http://homeassistant.local:8123/api/services/notify/alexa_media"
         (headers demo_token) [], ok (JArr []))]).
Proof.
  exact (call_service_payload (rt := simple_runtime) demo_url demo_token
           (constant_backend (ok (JArr [])))
           [("domain", JStr "notify"); ("service", JStr "alexa_media")] []
           (JStr "notify") (JStr "alexa_media") eq_refl eq_refl eq_refl).
Defined.

Lemma control_climate_without_settings_witness :
  execute_tool (rt := simple_runtime) demo_url demo_token
    (constant_backend (Failed "All connection attempts failed"))
    "control_climate" [("entity_id", JStr "climate.sala")] []
  = ([("success", JBool true); ("entity", JStr "climate.sala")], []).
Proof.
  apply (control_climate_without_settings (rt := simple_runtime) demo_url demo_token
           (constant_backend (Failed "All connection attempts failed"))
           [("entity_id", JStr "climate.sala")] [] (JStr "climate.sala")); reflexivity.
Defined.

Lemma control_climate_reads_three_fields_witness :
  execute_tool (rt := simple_runtime) demo_url demo_token two_step_backend
    "control_climate" (("fan_mode", JStr "high") :: climate_input) []
  = execute_tool (rt := simple_runtime) demo_url demo_token two_step_backend
      "control_climate" climate_input [].
Proof.
  apply (control_climate_reads_three_fields (rt := simple_runtime) demo_url demo_token
           two_step_backend (("fan_mode", JStr "high") :: climate_input) climate_input []).
  intros k [<- | [<- | [<- | []]]]; reflexivity.
Defined.

Lemma identifiers_override_domain_witness :
  execute_tool (rt := simple_runtime) demo_url demo_token two_step_backend
    "get_home_state" [("entity_ids", JArr [JStr "light.sala"]); ("domain", JStr "switch")] []
  = execute_tool (rt := simple_runtime) demo_url demo_token two_step_backend
      "get_home_state" [("entity_ids", JArr [JStr "light.sala"])] [].
Proof.
  apply (identifiers_override_domain (rt := simple_runtime) demo_url demo_token
           two_step_backend
           [("entity_ids", JArr [JStr "light.sala"]); ("domain", JStr "switch")]
           [("entity_ids", JArr [JStr "light.sala"])] [] (JArr [JStr "light.sala"]));
    reflexivity.
Defined.

Lemma snapshot_is_passed_through_witness :
  execute_tool (rt := simple_runtime) demo_url demo_token
    (constant_backend (ok (JStr "maintenance"))) "get_home_state" [("entity_ids", JArr [])] []
  = ([("states", JStr "maintenance")],
     [(snapshot_call demo_url demo_token, ok (JStr "maintenance"))]).
Proof.
  apply (snapshot_is_passed_through (rt := simple_runtime) demo_url demo_token
           (constant_backend (ok (JStr "maintenance"))) [("entity_ids", JArr [])] []
           (mkResponse 200 (inr (JStr "maintenance"))) (JStr "maintenance")); reflexivity.
Defined.

Lemma one_nameless_entity_fails_the_filter_witness :
  execute_tool (rt := simple_runtime) demo_url demo_token
    (constant_backend (ok (JArr [light_sala; JObj [("state", JStr "on")]])))
    "get_home_state" [("domain", JStr "light")] []
  = (error_result "'entity_id'",
     [(snapshot_call demo_url demo_token,
       ok (JArr [light_sala; JObj [("state", JStr "on")]]))]).
Proof.
  apply (one_nameless_entity_fails_the_filter (rt := simple_runtime) demo_url demo_token
           (constant_backend (ok (JArr [light_sala; JObj [("state", JStr "on")]])))
           [("domain", JStr "light")] [] "light"
           (mkResponse 200 (inr (JArr [light_sala; JObj [("state", JStr "on")]])))
           [light_sala; JObj [("state", JStr "on")]]);
    try reflexivity.
  - discriminate.
  - repeat constructor.
  - right. left. reflexivity.
Defined.

Lemma state_queries_stop_at_first_failure_witness :
  exists calls,
    snd (execute_tool (rt := simple_runtime) demo_url demo_token
           (scripted_backend [ok light_sala; server_error; ok light_quarto])
           "get_home_state"
           [("entity_ids", JArr [JStr "light.sala"; JStr "light.hall"; JStr "light.quarto"])] [])
    = ([] ++ calls)%list /\
    length calls = 2.
Proof.
  destruct (state_queries_stop_at_first_failure (rt := simple_runtime) demo_url demo_token
              (scripted_backend [ok light_sala; server_error; ok light_quarto])
              [("entity_ids", JArr [JStr "light.sala"; JStr "light.hall"; JStr "light.quarto"])] []
              [JStr "light.sala"; JStr "light.hall"; JStr "light.quarto"] eq_refl)
    as (calls & Hlog & _).
  exists calls. split; [exact Hlog|].
  simpl in Hlog. subst calls. reflexivity.
Defined.

Lemma get_history_pairs_entities_witness :
  exists stamp rs bodies,
    @start_time_iso simple_runtime (JNum 24) = inr stamp /\
    length rs = 1 /\
    length bodies = 1 /\
    map body rs = map inr bodies /\
    execute_tool (rt := simple_runtime) demo_url demo_token
      (constant_backend (ok (JArr []))) "get_history"
      [("entity_ids", JArr [JStr "light.sala"])] []
    = ([("histories",
         JArr (map (fun p => JObj [("entity_id", fst p); ("history", snd p)])
                 (combine [JStr "light.sala"] bodies)))],
       ([] ++ map (fun p => (GET (history_url demo_url stamp) (headers demo_token)
                               [("filter_entity_id", fst p)], Answered (snd p)))
                (combine [JStr "light.sala"] rs))%list).
Proof.
  apply (get_history_pairs_entities (rt := simple_runtime) demo_url demo_token
           (constant_backend (ok (JArr []))) [("entity_ids", JArr [JStr "light.sala"])] []
           [JStr "light.sala"]); reflexivity.
Defined.

Lemma result_is_error_or_success_witness :
  dict_get "error"
    (fst (execute_tool (rt := simple_runtime) demo_url demo_token
            (constant_backend (ok (JArr []))) "execute_scene" scene_input []))
  = None.
Proof.
  destruct (result_is_error_or_success (rt := simple_runtime) demo_url demo_token
              (constant_backend (ok (JArr []))) "execute_scene" scene_input [])
    as (_ & Hclean & _).
  apply Hclean. unfold success_shape. do 3 right. left.
  split; [reflexivity|]. eexists. reflexivity.
Defined.

Lemma answer_comes_from_last_call_witness :
  exists calls,
    llm_calls (snd (process_command_with_claude (rt := simple_runtime) demo_url demo_token
                      two_step_backend two_step_model 2 "apague a luz da sala" []
                      empty_world))
    = ([] ++ calls)%list /\
    ends_with_answer calls "Apaguei a luz da sala.".
Proof.
  apply (answer_comes_from_last_call (rt := simple_runtime) demo_url demo_token
           two_step_backend two_step_model 2 "apague a luz da sala" [] empty_world).
  reflexivity.
Defined.

Lemma loop_has_no_iteration_cap_witness :
  fst (process_command_with_claude (rt := simple_runtime) demo_url demo_token
         two_step_backend (insatiable_model ask_lights) 4 "apague a luz da sala" []
         empty_world) = None /\
  length (llm_calls (snd (process_command_with_claude (rt := simple_runtime) demo_url
                            demo_token two_step_backend (insatiable_model ask_lights) 4
                            "apague a luz da sala" [] empty_world)))
  = 0 + 4 + 1.
Proof.
  apply (loop_has_no_iteration_cap (rt := simple_runtime) demo_url demo_token
           two_step_backend (insatiable_model ask_lights) 4 "apague a luz da sala" []
           empty_world).
  intros log req. exists ask_lights. split; reflexivity.
Defined.

Lemma answer_has_no_surrounding_space_witness :
  first_is_space "Apaguei a luz da sala." = false /\
  last_is_space "Apaguei a luz da sala." = false.
Proof.
  apply (answer_has_no_surrounding_space (rt := simple_runtime) demo_url demo_token
           two_step_backend two_step_model 2 "apague a luz da sala" [] empty_world
           (snd (process_command_with_claude (rt := simple_runtime) demo_url demo_token
                   two_step_backend two_step_model 2 "apague a luz da sala" []
                   empty_world))
           "Apaguei a luz da sala."
           (llm_calls (snd (process_command_with_claude (rt := simple_runtime) demo_url
                              demo_token two_step_backend two_step_model 2
                              "apague a luz da sala" [] empty_world)))).
  - reflexivity.
  - reflexivity.
  - repeat constructor; eexists; reflexivity.
Defined.

Lemma only_a_wrong_key_is_rejected_witness :
  process_alexa_command (rt := simple_runtime) demo_url demo_token demo_key
    two_step_backend two_step_model 2 lights_request (Some "guess") empty_world
  = (Some (inl (mkHTTPException 401 "Unauthorized")), empty_world) /\
  process_alexa_command (rt := simple_runtime) demo_url demo_token demo_key
    two_step_backend two_step_model 2 lights_request None empty_world
  = (Some (inl (mkHTTPException 401 "Unauthorized")), empty_world).
Proof.
  split.
  - apply (proj1 (only_a_wrong_key_is_rejected (rt := simple_runtime) demo_url demo_token
                    demo_key two_step_backend two_step_model 2 lights_request
                    (Some "guess") empty_world)).
    discriminate.
  - apply (proj1 (only_a_wrong_key_is_rejected (rt := simple_runtime) demo_url demo_token
                    demo_key two_step_backend two_step_model 2 lights_request
                    None empty_world)).
    discriminate.
Defined.
